(** * LigandPlots: a shallow embedding of the GROMACS post-processing glue

    The development follows the four source files:
    - [helpers.py]  file discovery and the XVG reader,
    - [gromacs.py]  the [GromacsData] class that drives the container,
    - [plots.py]    the [Plots] class that renders the charts,
    - [main.py]     the [LigandPlots] orchestrator.

    Python text is modelled by [string]; only ASCII code points are covered.
    Everything outside the repository (the file system, the docker client,
    matplotlib, [float()]) is an interface: the operating-system side is the
    class [Env], the chart library is recorded as a trace of calls. *)

From Stdlib Require Import Ascii QArith.
From stdpp Require Import base strings list sorting gmap.

Local Open Scope string_scope.
Local Open Scope list_scope.

(** ** Python string primitives *)

Module PyStr.

Definition code (c : ascii) : N := Ascii.N_of_ascii c.

(** [str.isspace] on the ASCII range: TAB, LF, VT, FF, CR, the four
    separators 0x1c-0x1f and the blank. *)
Definition isspace (c : ascii) : bool :=
  let n := code c in
  ((9 <=? n) && (n <=? 13) || (28 <=? n) && (n <=? 32))%N.

(** [str.isdecimal] on the ASCII range, which is what [\d] tests. *)
Definition isdigit (c : ascii) : bool :=
  let n := code c in ((48 <=? n) && (n <=? 57))%N.

Fixpoint take_while (p : ascii → bool) (s : string) : string :=
  match s with
  | String c s' => if p c then String c (take_while p s') else ""
  | "" => ""
  end.

Fixpoint drop_while (p : ascii → bool) (s : string) : string :=
  match s with
  | String c s' => if p c then drop_while p s' else s
  | "" => ""
  end.

(** [s.startswith(prefix)] and the rest of [s] after the prefix. *)
Fixpoint strip_prefix (prefix s : string) : option string :=
  match prefix, s with
  | "", _ => Some s
  | String a p', String b s' =>
      if Ascii.eqb a b then strip_prefix p' s' else None
  | String _ _, "" => None
  end.

Definition startswith (s prefix : string) : bool :=
  match strip_prefix prefix s with Some _ => true | None => false end.

(** [s.endswith(suffix)] *)
Definition endswith (s suffix : string) : bool :=
  startswith (String.rev s) (String.rev suffix).

(** [s.strip()]: whitespace removed at both ends. *)
Definition lstrip (s : string) : string := drop_while isspace s.
Definition rstrip (s : string) : string :=
  String.rev (drop_while isspace (String.rev s)).
Definition strip (s : string) : string := rstrip (lstrip s).

(** [s.split()]: the maximal runs of non-whitespace characters. *)
Fixpoint split_go (cur : string) (s : string) : list string :=
  match s with
  | "" => if String.eqb cur "" then [] else [String.rev cur]
  | String c s' =>
      if isspace c
      then (if String.eqb cur "" then [] else [String.rev cur])
             ++ split_go "" s'
      else split_go (String c cur) s'
  end.
Definition split (s : string) : list string := split_go "" s.

(** Text-mode reading translates CR LF and a lone CR to LF. *)
Fixpoint universal_newlines (s : string) : string :=
  match s with
  | "" => ""
  | String c s' =>
      if Ascii.eqb c "013"%char
      then match s' with
           | String d s'' =>
               if Ascii.eqb d "010"%char
               then String "010"%char (universal_newlines s'')
               else String "010"%char (universal_newlines s')
           | "" => String "010"%char ""
           end
      else String c (universal_newlines s')
  end.

(** Iterating a text file: each line keeps its final LF; the last line
    may lack one; an empty file has no line. *)
Fixpoint lines_go (cur : string) (s : string) : list string :=
  match s with
  | "" => if String.eqb cur "" then [] else [String.rev cur]
  | String c s' =>
      if Ascii.eqb c "010"%char
      then String.rev (String c cur) :: lines_go "" s'
      else lines_go (String c cur) s'
  end.
Definition readlines (content : string) : list string :=
  lines_go "" (universal_newlines content).

(** [sep.join(l)] *)
Definition join (sep : string) (l : list string) : string :=
  String.concat sep l.

(** The line feed, and a run of [n] blanks. *)
Definition nl : string := String "010"%char "".

Fixpoint blanks (n : nat) : string :=
  match n with
  | O => ""
  | S n' => String " "%char (blanks n')
  end.

(** [f"{v}"] for a value that is a string or [None] *)
Definition format_optional (v : option string) : string :=
  match v with
  | Some s => s
  | None => "None"
  end.

End PyStr.

(** ** Exceptions and results *)

Inductive exn : Type :=
  | IndexError
  | ValueError
  | OSError
  | UnicodeDecodeError
  | DockerException.

Inductive result (A : Type) : Type :=
  | Ok (a : A)
  | Raise (e : exn).
Arguments Ok {A} a.
Arguments Raise {A} e.

(** [l[i]] for a Python sequence: negative indices count from the end,
    anything out of range raises [IndexError]. *)
Definition py_index {A} (l : list A) (i : Z) : result A :=
  let n := Z.of_nat (length l) in
  let j := (if i <? 0 then n + i else i)%Z in
  if ((0 <=? j) && (j <? n))%Z
  then match l !! Z.to_nat j with
       | Some a => Ok a
       | None => Raise IndexError
       end
  else Raise IndexError.

(** ** Paths *)

(** A [pathlib.Path] (on a POSIX system) is kept as the components of its
    string form split at the separator: this list is what [PurePath]
    compares two paths by, so [sorted] on paths orders them component by
    component and not as strings. *)
Record Path : Type := MkPath { parts : list string }.

Global Instance Path_eq_dec : EqDecision Path.
Proof. solve_decision. Defined.

Global Instance Path_countable : Countable Path.
Proof. apply (inj_countable' parts MkPath). by intros []. Defined.

(** [str(p)] *)
Definition path_str (p : Path) : string := PyStr.join "/" (parts p).

(** [p.name] *)
Definition path_name (p : Path) : string := List.last (parts p) "".

(** [p / name] *)
Definition path_child (p : Path) (name : string) : Path :=
  MkPath (parts p ++ [name]).

(** Python's sequence comparison on the component lists. *)
Fixpoint parts_compare (p q : list string) : comparison :=
  match p, q with
  | [], [] => Eq
  | [], _ :: _ => Lt
  | _ :: _, [] => Gt
  | a :: p', b :: q' =>
      match String.compare a b with
      | Eq => parts_compare p' q'
      | c => c
      end
  end.

(** [p <= q] on [Path] objects. *)
Definition path_le (p q : Path) : Prop :=
  parts_compare (parts p) (parts q) ≠ Gt.

Global Instance path_le_dec p q : Decision (path_le p q).
Proof. unfold path_le. apply _. Defined.

(** The order of the path strings, for comparison with [path_le]. *)
Definition path_str_le (p q : Path) : Prop :=
  String.le (path_str p) (path_str q).

Global Instance path_str_le_dec p q : Decision (path_str_le p q).
Proof. unfold path_str_le. apply _. Defined.

(** ** A state-and-exception monad

    A Python call either returns or raises; either way the effects it had
    on the state stay. *)

Definition M (S A : Type) : Type := S → result A * S.

Global Instance M_ret {S} : MRet (M S) := λ A a s, (Ok a, s).

Global Instance M_bind {S} : MBind (M S) := λ A B f m s,
  match m s with
  | (Ok a, s') => f a s'
  | (Raise e, s') => (Raise e, s')
  end.

Definition raise {S A} (e : exn) : M S A := λ s, (Raise e, s).

Definition gets {S A} (f : S → A) : M S A := λ s, (Ok (f s), s).

Definition modify {S} (f : S → S) : M S unit := λ s, (Ok (), f s).

(** A value that may be an exception, inside the monad. *)
Definition lift_result {S A} (r : result A) : M S A := λ s, (r, s).

(** ** The interfaces to the outside *)

(** Python's [float]: only parsing and division are used. *)
Class PyFloat : Type := {
  float : Type;
  (** [float(token)]; [None] stands for [ValueError] *)
  float_of_str : string → option float;
  float_of_Z : Z → float;
  float_div : float → float → float;
}.

(** One entry of the [volumes] table of docker's [containers.run]. *)
Record VolumeSpec : Type := { vol_bind : string; vol_mode : string }.

Global Instance VolumeSpec_eq_dec : EqDecision VolumeSpec.
Proof. solve_decision. Defined.

(** The arguments of one [client.containers.run] call. *)
Record Invocation : Type := {
  inv_image : string;
  inv_command : list string;
  inv_working_dir : string;
  inv_volumes : gmap Path VolumeSpec;
  inv_remove : bool;
}.

(** The file system and the execution backend. [FS] is the state of the
    disk; every operation may raise, and the ones that write return the new
    disk. *)
Class Env : Type := {
  FS : Type;
  (** [Path(dir).glob(pattern)], in whatever order the directory scan
      yields the entries *)
  glob : FS → Path → string → list Path;
  (** [open(name, 'r', encoding='utf8')]: the decoded text of the file *)
  open_read : FS → string → result string;
  (** [Path(name).mkdir(parents=True, exist_ok=True)] *)
  mkdir : string → FS → result unit * FS;
  (** [docker.from_env().containers.run(...)]: the captured standard output,
      and the disk as the container left it through the mounted volume *)
  containers_run : Invocation → FS → result string * FS;
  (** [bytes.decode("utf-8")] *)
  decode_utf8 : string → result string;
  (** [tarfile.open(archive, "r:gz").getmembers()], as member names *)
  tar_getmembers : FS → Path → result (list string);
  (** [tar.extract(member, path=dest)] *)
  tar_extract : Path → string → string → FS → result unit * FS;
  (** [shutil.rmtree(name)] *)
  rmtree : string → FS → result unit * FS;
}.

(** ** The chart library, as recorded calls *)

Inductive plt_call `{PyFloat} : Type :=
  | Subplots
  | AxPlot (x y : list float) (color : string) (linewidth : Q)
  | Xlabel (s : string)
  | Ylabel (s : string)
  | Title (s : string)
  | Legend (s : string)
  | Xlim (left right : float)
  | MinorticksOn
  | TickParams (axis which direction : string) (right top : bool)
  | Suptitle (t : string) (fontsize : Z) (y : Z)
  | Savefig (fname : string) (bbox_inches : string) (pad_inches : Q)
      (dpi : Z).

(** The methods of the three classes whose entry is recorded. *)
Inductive method : Type :=
  | generate_minimization_data_m
  | generate_nvt_data_m
  | generate_npt_data_m
  | generate_final_xtc_file_m
  | fix_periodicity_m
  | get_initial_configuration_m
  | get_latest_configuration_m
  | plot_energy_minimization_m
  | plot_temperature_m
  | plot_pressure_m
  | plot_density_m.

Global Instance method_eq_dec : EqDecision method.
Proof. solve_decision. Defined.

(** What a run leaves behind, in order. [ECall] is a ghost event put at the
    entry of a method; the others are calls the source makes: a log line,
    a container run asked of the docker client (recorded whether or not the
    backend then succeeds), a call into matplotlib. *)
Inductive event `{PyFloat} : Type :=
  | ECall (m : method)
  | ELog (msg : string)
  | ERun (inv : Invocation)
  | EPlt (c : plt_call).

Record World `{PyFloat, Env} : Type := {
  fs : FS;
  trace : list event;
}.

(** An object together with the world: the state of a method body. *)
Record Obj (O : Type) `{PyFloat, Env} : Type := {
  self : O;
  world : World;
}.
Arguments self {O _ _} _.
Arguments world {O _ _} _.

Global Instance result_ret : MRet result := λ A a, Ok a.

Global Instance result_bind : MBind result := λ A B f r,
  match r with
  | Ok a => f a
  | Raise e => Raise e
  end.

(** ** Primitive actions on the world *)

Section Primitives.
Context `{PF : PyFloat, EV : Env}.

Definition emit (e : event) : M World unit :=
  modify (λ w, {| fs := fs w; trace := trace w ++ [e] |}).

(** [logging.info(msg)] *)
Definition logging_info (msg : string) : M World unit := emit (ELog msg).

(** An operation that may change the disk. *)
Definition on_fs {A} (op : FS → result A * FS) : M World A := λ w,
  let '(r, d) := op (fs w) in (r, {| fs := d; trace := trace w |}).

(** An operation that only looks at the disk. *)
Definition read_fs {A} (f : FS → result A) : M World A := λ w, (f (fs w), w).

(** A world action run from inside a method body. *)
Definition in_world {O A} (m : M World A) : M (Obj O) A := λ s,
  let '(r, w) := m (world s) in (r, {| self := self s; world := w |}).

(** [self.attribute] *)
Definition attr {O A} (f : O → A) : M (Obj O) A := gets (λ s, f (self s)).

(** [o.method(...)] from the top level: the method runs on [o] in the
    current world; the caller gets the result and the object as the method
    left it. *)
Definition run_obj {O A} (o : O) (m : M (Obj O) A) : M World (A * O) :=
  λ w,
  match m {| self := o; world := w |} with
  | (Ok a, s) => (Ok (a, self s), world s)
  | (Raise e, s) => (Raise e, world s)
  end.

(** [o.method(...)] from inside another object's method. *)
Definition call {O O' A} (o : O) (m : M (Obj O) A) : M (Obj O') (A * O) :=
  in_world (run_obj o m).

End Primitives.

(** ** numpy arrays of floats, as far as the program uses them *)

Module np.
Section np.
Context `{PF : PyFloat}.

(** An [ndarray] of dtype float: the 1-D empty array that an empty list
    converts to, or an N-by-k matrix. *)
Inductive ndarray : Type :=
  | Empty1D
  | Matrix (ncols : nat) (rows : list (list float)).

(** [np.array(data, dtype=float)] on a list of lists of floats: rows of
    unequal length cannot be put in one float array. *)
Definition array (data : list (list float)) : result ndarray :=
  match data with
  | [] => Ok Empty1D
  | r :: rs =>
      if forallb (λ r', Nat.eqb (length r') (length r)) rs
      then Ok (Matrix (length r) data)
      else Raise ValueError
  end.

(** [a.shape[0]] *)
Definition nrows (a : ndarray) : nat :=
  match a with
  | Empty1D => 0
  | Matrix _ rows => length rows
  end.

(** The rows as lists, [a.tolist()] *)
Definition tolist (a : ndarray) : list (list float) :=
  match a with
  | Empty1D => []
  | Matrix _ rows => rows
  end.

(** [a[:, j]] for [j >= 0] *)
Definition column (a : ndarray) (j : nat) : result (list float) :=
  match a with
  | Empty1D => Raise IndexError
  | Matrix ncols rows =>
      if Nat.ltb j ncols
      then Ok (omap (λ r, r !! j) rows)
      else Raise IndexError
  end.

(** [a / k] elementwise on a 1-D array *)
Definition divide (a : list float) (k : Z) : list float :=
  (λ v, float_div v (float_of_Z k)) <$> a.

End np.
End np.

(** ** helpers.py *)

Module helpers.
Section helpers.
Context `{PF : PyFloat, EV : Env}.

(** [sorted] on a list of paths. The sorted permutation of a list is unique
    for this order, so any sorting algorithm gives the same list. *)
Definition sorted (l : list Path) : list Path := merge_sort path_le l.

Definition find_files_with_same_pattern
    (d : FS) (path : Path) (pattern : string) : list Path :=
  let search_directory := path in
  let search_pattern := sorted (glob d search_directory pattern) in
  search_pattern.

Definition create_folder (path : Path) (folder_name : string)
    : M World unit :=
  let folder_path := path_str path +:+ "/" +:+ folder_name in
  on_fs (mkdir folder_path).

(** [line.startswith('#') or line.startswith('@')] *)
Definition is_comment (line : string) : bool :=
  PyStr.startswith line "#" || PyStr.startswith line "@".

(** [[float(val) for val in tokens]]: the first bad token raises. *)
Fixpoint floats_of (tokens : list string) : result (list float) :=
  match tokens with
  | [] => Ok []
  | val :: rest =>
      match float_of_str val with
      | None => Raise ValueError
      | Some v => vs ← floats_of rest; mret (v :: vs)
      end
  end.

(** The loop over the lines of the file, building [data]. *)
Fixpoint xvg_rows (lines : list string) : result (list (list float)) :=
  match lines with
  | [] => Ok []
  | line :: rest =>
      if is_comment line then xvg_rows rest
      else
        values ← floats_of (PyStr.split (PyStr.strip line));
        data ← xvg_rows rest;
        mret (values :: data)
  end.

(** [read_xvg_files] on the text of the file. *)
Definition read_xvg (content : string) : result np.ndarray :=
  data ← xvg_rows (PyStr.readlines content);
  np.array data.

Definition read_xvg_files (file_path : string) : M World np.ndarray :=
  content ← read_fs (λ d, open_read d file_path);
  lift_result (read_xvg content).

End helpers.
End helpers.

(** ** The pattern [Last frame\s+(\d+(\.\d+)?)] *)

Module re.

(** A match of the pattern that starts at the head of [s]; the result is
    group 1. Both [\s+] and [\d+] are greedy; whitespace and digits are
    disjoint, so giving characters back never helps, and the optional
    fraction is taken when it is there. *)
Definition match_last_frame (s : string) : option string :=
  rest ← PyStr.strip_prefix "Last frame" s;
  if String.eqb (PyStr.take_while PyStr.isspace rest) "" then None
  else
    let rest := PyStr.drop_while PyStr.isspace rest in
    let whole := PyStr.take_while PyStr.isdigit rest in
    if String.eqb whole "" then None
    else
      match PyStr.drop_while PyStr.isdigit rest with
      | String "." rest =>
          let frac := PyStr.take_while PyStr.isdigit rest in
          if String.eqb frac "" then Some whole
          else Some (whole +:+ "." +:+ frac)
      | _ => Some whole
      end.

(** [re.search(r'Last frame\s+(\d+(\.\d+)?)', line)]: the leftmost match,
    as its group 1. *)
Fixpoint search_last_frame (line : string) : option string :=
  match match_last_frame line with
  | Some g => Some g
  | None =>
      match line with
      | "" => None
      | String _ line' => search_last_frame line'
      end
  end.

End re.

(** ** gromacs.py *)

Module GromacsData.

Record t : Type := {
  path : Path;
  volume : gmap Path VolumeSpec;
  results_folder : Path;
}.

Definition CONTAINER_WORK_DIR : string := "/container/data".

Section GromacsData.
Context `{PF : PyFloat, EV : Env}.

Definition __init__ (path : Path) : M World t :=
  let self_path := path in
  let self_volume : gmap Path VolumeSpec :=
    {[ self_path := {| vol_bind := CONTAINER_WORK_DIR; vol_mode := "rw" |} ]} in
  helpers.create_folder self_path "results" ;;
  mret {| path := self_path;
          volume := self_volume;
          results_folder := path_child self_path "results" |}.

(** [working_dir] is [None] when the caller leaves the parameter out; the
    keyword arguments the callers pass are [volumes] and [remove] (which
    docker takes as false when absent). *)
Definition _run_gromacs_container (command : list string)
    (working_dir : option string)
    (volumes : gmap Path VolumeSpec) (remove : bool) : M (Obj t) string :=
  let working_dir := default CONTAINER_WORK_DIR working_dir in
  let gromacs_image := "jpmontoya19/gromacs:latest" in
  let inv := {| inv_image := gromacs_image;
                inv_command := command;
                inv_working_dir := working_dir;
                inv_volumes := volumes;
                inv_remove := remove |} in
  in_world (emit (ERun inv) ;; on_fs (containers_run inv)).

(** [logging.info(command[-1])] *)
Definition log_last (command : list string) : M (Obj t) unit :=
  msg ← lift_result (py_index command (-1));
  in_world (logging_info msg).

Definition _find_last_tpr_file : M (Obj t) (string * Path) :=
  self_path ← attr path;
  files ← in_world (gets (λ w,
    helpers.find_files_with_same_pattern (fs w) self_path "md_0_*.tpr"));
  last_tpr ← lift_result (py_index files (-1));
  mret (path_name last_tpr, last_tpr).

Definition generate_minimization_data : M (Obj t) string :=
  in_world (emit (ECall generate_minimization_data_m)) ;;
  let command :=
    ["sh"; "-c"; "echo 10 0 | gmx energy -f em.edr -o potential.xvg"] in
  log_last command ;;
  self_volume ← attr volume;
  out ← _run_gromacs_container command None self_volume true;
  energy_minimization ← lift_result (decode_utf8 out);
  mret energy_minimization.

Definition generate_nvt_data : M (Obj t) string :=
  in_world (emit (ECall generate_nvt_data_m)) ;;
  let command :=
    ["sh"; "-c"; "echo 16 0 | gmx energy -f nvt.edr -o temperature.xvg"] in
  log_last command ;;
  self_volume ← attr volume;
  out ← _run_gromacs_container command None self_volume false;
  temperature ← lift_result (decode_utf8 out);
  mret temperature.

Definition generate_npt_data : M (Obj t) string :=
  in_world (emit (ECall generate_npt_data_m)) ;;
  let command_pressure :=
    ["sh"; "-c"; "echo 18 0 | gmx energy -f npt.edr -o pressure.xvg"] in
  log_last command_pressure ;;
  self_volume ← attr volume;
  out ← _run_gromacs_container command_pressure None self_volume false;
  pressure ← lift_result (decode_utf8 out);
  let command_density :=
    ["sh"; "-c"; "echo 24 0 | gmx energy -f npt.edr -o density.xvg"] in
  log_last command_density ;;
  self_volume ← attr volume;
  out ← _run_gromacs_container command_density None self_volume false;
  density ← lift_result (decode_utf8 out);
  mret (pressure +:+ ", " +:+ PyStr.nl +:+ ", " +:+ density).

(** The inner loop of [generate_final_xtc_file] over the members of one
    archive; [xtc_files] is the list built so far. *)
Fixpoint extract_xtc_members (step : Path) (dest : string)
    (members : list string) (xtc_files : list string)
    : M World (list string) :=
  match members with
  | [] => mret xtc_files
  | name :: rest =>
      if PyStr.endswith name ".xtc"
      then on_fs (tar_extract step name dest) ;;
           extract_xtc_members step dest rest (xtc_files ++ [name])
      else extract_xtc_members step dest rest xtc_files
  end.

(** The outer loop over the archives. *)
Fixpoint extract_xtc_steps (steps : list Path) (dest : string)
    (xtc_files : list string) : M World (list string) :=
  match steps with
  | [] => mret xtc_files
  | step :: rest =>
      members ← read_fs (λ d, tar_getmembers d step);
      xtc_files ← extract_xtc_members step dest members xtc_files;
      extract_xtc_steps rest dest xtc_files
  end.

Definition generate_final_xtc_file : M (Obj t) unit :=
  in_world (emit (ECall generate_final_xtc_file_m)) ;;
  self_path ← attr path;
  steps ← in_world (gets (λ w,
    helpers.find_files_with_same_pattern (fs w) self_path
      "my_job_*.output.tar.gz"));
  xtc_files ← in_world (extract_xtc_steps steps (path_str self_path) []);
  let command :=
    ["sh"; "-c";
     "gmx trjcat -f " +:+ PyStr.join " " xtc_files +:+ " -o final.xtc"] in
  log_last command ;;
  self_volume ← attr volume;
  _ ← _run_gromacs_container command None self_volume false;
  in_world (on_fs (rmtree (path_str self_path +:+ "/my_output"))).

Definition fix_periodicity : M (Obj t) string :=
  in_world (emit (ECall fix_periodicity_m)) ;;
  '(filename, _) ← _find_last_tpr_file;
  let command :=
    ["sh"; "-c";
     "echo 1 0 | gmx trjconv -s " +:+ filename +:+
     " -f final.xtc -o fixed.xtc -center -pbc mol -ur compact"] in
  log_last command ;;
  self_volume ← attr volume;
  out ← _run_gromacs_container command None self_volume false;
  periodicity ← lift_result (decode_utf8 out);
  mret periodicity.

(** The triple-quoted command text of the two dump steps: a backslash at
    the end of a source line joins it to the next, so the text is one line
    between a leading and a final line feed. *)
Definition dump_command (filename output dump : string) : string :=
  PyStr.nl +:+
  PyStr.blanks 16 +:+ "echo 22 | " +:+
  PyStr.blanks 16 +:+ "gmx trjconv " +:+
  PyStr.blanks 20 +:+ "-s " +:+ filename +:+ " " +:+
  PyStr.blanks 20 +:+ "-f fixed.xtc " +:+
  PyStr.blanks 20 +:+ "-n index.ndx " +:+
  PyStr.blanks 20 +:+ "-o " +:+ output +:+ " " +:+
  PyStr.blanks 20 +:+ "-dump " +:+ dump +:+
  PyStr.nl +:+ PyStr.blanks 12.

Definition get_initial_configuration : M (Obj t) unit :=
  in_world (emit (ECall get_initial_configuration_m)) ;;
  '(filename, _) ← _find_last_tpr_file;
  let command :=
    ["sh"; "-c"; dump_command filename "initial_configuration.pdb" "0"] in
  log_last command ;;
  self_volume ← attr volume;
  _ ← _run_gromacs_container command None self_volume false;
  mret ().

(** The loop that looks for the marker: the first line that matches gives
    the value, and [None] stays when no line matches. *)
Fixpoint find_last_frame (lines : list string) : option string :=
  match lines with
  | [] => None
  | line :: rest =>
      match re.search_last_frame line with
      | Some g => Some g
      | None => find_last_frame rest
      end
  end.

Definition get_latest_configuration : M (Obj t) unit :=
  in_world (emit (ECall get_latest_configuration_m)) ;;
  let command :=
    ["sh"; "-c"; "gmx check -f fixed.xtc > trajectory_info.txt 2>&1"] in
  self_volume ← attr volume;
  _ ← _run_gromacs_container command None self_volume false;
  self_path ← attr path;
  content ← in_world (read_fs (λ d,
    open_read d (path_str self_path +:+ "/trajectory_info.txt")));
  let lines := PyStr.readlines content in
  let last_frame := find_last_frame lines in
  in_world (logging_info
    ("Last frame: " +:+ PyStr.format_optional last_frame)) ;;
  '(filename, _) ← _find_last_tpr_file;
  let command :=
    ["sh"; "-c";
     dump_command filename "last_configuration.pdb"
       (PyStr.format_optional last_frame)] in
  log_last command ;;
  self_volume ← attr volume;
  _ ← _run_gromacs_container command None self_volume false;
  mret ().

End GromacsData.
End GromacsData.

(** ** plots.py *)

Module Plots.

Record t : Type := {
  path : Path;
  protein : string;
  images_path : string;
}.

(** The figure object that [plot_data] hands back. *)
Inductive Figure : Type := Fig.

Section Plots.
Context `{PF : PyFloat, EV : Env}.

Definition __init__ (path : Path) (protein : string) : M World t :=
  let self_images_path := path_str path +:+ "/images/" in
  helpers.create_folder path "images" ;;
  mret {| path := path; protein := protein;
          images_path := self_images_path |}.

(** A call into matplotlib: it is recorded in the trace, and taken to
    return. *)
Definition plt (c : plt_call) : M (Obj t) unit := in_world (emit (EPlt c)).

(** [ax.plot(x, y, ...)]: matplotlib refuses series of different lengths. *)
Definition ax_plot (x y : list float) (color : string) (linewidth : Q)
    : M (Obj t) unit :=
  if Nat.eqb (length x) (length y)
  then plt (AxPlot x y color linewidth)
  else raise ValueError.

Definition plot_data (x y : list float) (titles : list string)
    : M (Obj t) Figure :=
  plt Subplots ;;
  ax_plot x y "black" 0.7%Q ;;
  xlabel ← lift_result (py_index titles 0);
  plt (Xlabel xlabel) ;;
  ylabel ← lift_result (py_index titles 1);
  plt (Ylabel ylabel) ;;
  title ← lift_result (py_index titles 2);
  plt (Title title) ;;
  (if Nat.eqb (length titles) 4
   then legend ← lift_result (py_index titles (-1)); plt (Legend legend)
   else mret ()) ;;
  left ← lift_result (py_index x 0);
  right ← lift_result (py_index x (-1));
  plt (Xlim left right) ;;
  plt MinorticksOn ;;
  plt (TickParams "both" "both" "in" true true) ;;
  mret Fig.

Definition plot_energy_minimization : M (Obj t) unit :=
  in_world (emit (ECall plot_energy_minimization_m)) ;;
  self_path ← attr path;
  energy_data ← in_world
    (helpers.read_xvg_files (path_str self_path +:+ "/potential.xvg"));
  col0 ← lift_result (np.column energy_data 0);
  col1 ← lift_result (np.column energy_data 1);
  self_protein ← attr protein;
  _ ← plot_data (np.divide col0 1000) col1
        ["Time $(ns)$"; "Potential Energy $(kJ/mol)$"; self_protein];
  plt (Suptitle "Energy Minimization" 20 1) ;;
  self_images_path ← attr images_path;
  plt (Savefig (self_images_path +:+ "minimization.png") "tight" 0.1%Q 300).

Definition plot_temperature : M (Obj t) unit :=
  in_world (emit (ECall plot_temperature_m)) ;;
  self_path ← attr path;
  temperature ← in_world
    (helpers.read_xvg_files (path_str self_path +:+ "/temperature.xvg"));
  col0 ← lift_result (np.column temperature 0);
  col1 ← lift_result (np.column temperature 1);
  self_protein ← attr protein;
  _ ← plot_data col0 col1
        ["Time $(ps)$"; "Potential Energy $(K)$";
         self_protein +:+ ", NVT Equilibration"];
  plt (Suptitle "Temperature" 20 1) ;;
  self_images_path ← attr images_path;
  plt (Savefig (self_images_path +:+ "temperature.png") "tight" 0.1%Q 300).

Definition plot_pressure : M (Obj t) unit :=
  in_world (emit (ECall plot_pressure_m)) ;;
  self_path ← attr path;
  pressure ← in_world
    (helpers.read_xvg_files (path_str self_path +:+ "/pressure.xvg"));
  col0 ← lift_result (np.column pressure 0);
  col1 ← lift_result (np.column pressure 1);
  self_protein ← attr protein;
  _ ← plot_data col0 col1
        ["Time $(ps)$"; "Pressure $(bar)$";
         self_protein +:+ ", NPT Equilibration"];
  plt (Suptitle "Pressure" 20 1) ;;
  self_images_path ← attr images_path;
  plt (Savefig (self_images_path +:+ "pressure.png") "tight" 0.1%Q 300).

Definition plot_density : M (Obj t) unit :=
  in_world (emit (ECall plot_density_m)) ;;
  self_path ← attr path;
  density ← in_world
    (helpers.read_xvg_files (path_str self_path +:+ "/density.xvg"));
  col0 ← lift_result (np.column density 0);
  col1 ← lift_result (np.column density 1);
  self_protein ← attr protein;
  _ ← plot_data col0 col1
        ["Time $(ps)$"; "Density $(kg/m^{3})$";
         self_protein +:+ ", NPT Equilibration"];
  plt (Suptitle "Density" 20 1) ;;
  self_images_path ← attr images_path;
  plt (Savefig (self_images_path +:+ "density.png") "tight" 0.1%Q 300).

End Plots.
End Plots.

(** ** main.py *)

Module LigandPlots.

Record t : Type := {
  path : Path;
  protein : string;
  run_gromacs : bool;
}.

Section LigandPlots.
Context `{PF : PyFloat, EV : Env}.

Definition __init__ (path : Path) (protein : string) (run_gromacs : bool)
    : t :=
  {| path := path; protein := protein; run_gromacs := run_gromacs |}.

Definition info (msg : string) : M (Obj t) unit :=
  in_world (logging_info msg).

Definition generate_gromacs_data : M (Obj t) unit :=
  self_path ← attr path;
  gromacs ← in_world (GromacsData.__init__ self_path);
  info "Generating minimization data" ;;
  '(energy_minimization, gromacs) ←
    call gromacs GromacsData.generate_minimization_data;
  info energy_minimization ;;
  info "Generating NVT data" ;;
  '(temperature_data, gromacs) ←
    call gromacs GromacsData.generate_nvt_data;
  info temperature_data ;;
  info "Generating NPT data" ;;
  '(npt_data, gromacs) ← call gromacs GromacsData.generate_npt_data;
  info npt_data ;;
  self_run_gromacs ← attr run_gromacs;
  gromacs ←
    (if (self_run_gromacs : bool)
     then
       info "Generate final XTC file" ;;
       '(_, gromacs) ← call gromacs GromacsData.generate_final_xtc_file;
       '(periodicity, gromacs) ← call gromacs GromacsData.fix_periodicity;
       info periodicity ;;
       mret gromacs
     else mret gromacs);
  info "Generate initial configuration file" ;;
  '(_, gromacs) ← call gromacs GromacsData.get_initial_configuration;
  info "Generate last configuration file" ;;
  '(_, gromacs) ← call gromacs GromacsData.get_latest_configuration;
  mret ().

Definition generate_ligand_plots : M (Obj t) unit :=
  self_path ← attr path;
  self_protein ← attr protein;
  plots ← in_world (Plots.__init__ self_path self_protein);
  info "Plotting energy minimization" ;;
  '(_, plots) ← call plots Plots.plot_energy_minimization;
  info "Plotting temperature" ;;
  '(_, plots) ← call plots Plots.plot_temperature;
  info "Plotting pressure" ;;
  '(_, plots) ← call plots Plots.plot_pressure;
  info "Plotting density" ;;
  '(_, plots) ← call plots Plots.plot_density;
  mret ().

Definition Run : M (Obj t) unit :=
  info "Running LigandPlots" ;;
  generate_gromacs_data ;;
  info "Generating gromacs plots" ;;
  generate_ligand_plots.

(** The command-line entry point. *)
Definition cli (path : Path) (protein : string) (run_gromacs : bool)
    : M World unit :=
  let ligand_plots := __init__ path protein run_gromacs in
  _ ← run_obj ligand_plots Run;
  mret ().

End LigandPlots.
End LigandPlots.

(** ** A simulated environment

    A small concrete instance of the two interfaces, on which the program
    can be run: decimals for floats, a flat list of files for the disk and
    a scripted backend. It is used for the examples only; the theorems
    hold for every instance. *)

Module Sim.

(** The digits of a decimal numeral as a number. *)
Fixpoint digits_value (acc : Z) (s : string) : option Z :=
  match s with
  | "" => Some acc
  | String c s' =>
      if PyStr.isdigit c
      then digits_value (10 * acc + Z.of_N (PyStr.code c) - 48)%Z s'
      else None
  end.

(** A reader of plain decimals: an optional minus sign, digits, and
    optionally a point and more digits. *)
Definition unsigned_decimal (s : string) : option Q :=
  let whole := PyStr.take_while PyStr.isdigit s in
  if String.eqb whole "" then None
  else
    w ← digits_value 0 whole;
    match PyStr.drop_while PyStr.isdigit s with
    | "" => Some (inject_Z w)
    | String "." frac =>
        if String.eqb frac "" then None
        else
          f ← digits_value 0 frac;
          let scale := (10 ^ Z.of_nat (String.length frac))%Z in
          Some (Qmake (w * scale + f) (Z.to_pos scale))
    | _ => None
    end.

Definition decimal (s : string) : option Q :=
  match s with
  | String "-" s' => Qopp <$> unsigned_decimal s'
  | _ => unsigned_decimal s
  end.

Definition SimFloat : PyFloat := {|
  float := Q;
  float_of_str := decimal;
  float_of_Z := inject_Z;
  float_div := Qdiv;
|}.

(** Shell-style matching of one file name, with [*] and [?]. *)
Fixpoint fnmatch (pattern : string) : string → bool :=
  match pattern with
  | "" => λ name, String.eqb name ""
  | String "*" pattern' =>
      fix star (name : string) : bool :=
        fnmatch pattern' name ||
        match name with
        | "" => false
        | String _ name' => star name'
        end
  | String "?" pattern' => λ name,
      match name with
      | "" => false
      | String _ name' => fnmatch pattern' name'
      end
  | String c pattern' => λ name,
      match name with
      | "" => false
      | String d name' => Ascii.eqb c d && fnmatch pattern' name'
      end
  end.

(** [name.split("/")] *)
Fixpoint split_slash (cur : string) (name : string) : list string :=
  match name with
  | "" => [String.rev cur]
  | String c name' =>
      if Ascii.eqb c "/" then String.rev cur :: split_slash "" name'
      else split_slash (String c cur) name'
  end.

(** The disk: the files in the order a directory scan yields them, the
    text that [gmx check] will print, and whether docker is reachable. *)
Record Disk : Type := {
  entries : list (Path * string);
  check_report : string;
  docker_up : bool;
}.

(** The components of [p] below the directory [dir], when [p] lies
    below it. *)
Fixpoint below (dir p : list string) : option (list string) :=
  match dir, p with
  | [], _ => Some p
  | a :: dir', b :: p' => if String.eqb a b then below dir' p' else None
  | _ :: _, [] => None
  end.

(** The segments of a pattern against the components of a relative path,
    one by one. *)
Fixpoint match_segments (segments names : list string) : bool :=
  match segments, names with
  | [], [] => true
  | s :: segments', n :: names' =>
      fnmatch s n && match_segments segments' names'
  | _, _ => false
  end.

(** The files below [dir] whose relative path matches the pattern, in
    scan order. *)
Definition sim_glob (d : Disk) (dir : Path) (pattern : string)
    : list Path :=
  omap (λ e : Path * string,
          match below (parts dir) (parts e.1) with
          | Some names =>
              if match_segments (split_slash "" pattern) names
              then Some e.1 else None
          | None => None
          end)
       (entries d).

Definition sim_open_read (d : Disk) (name : string) : result string :=
  match List.find (λ e : Path * string, String.eqb (path_str e.1) name)
          (entries d) with
  | Some e => Ok e.2
  | None => Raise OSError
  end.

(** The path that [name] denotes. *)
Definition path_of_string (name : string) : Path :=
  MkPath (split_slash "" name).

Definition write_file (d : Disk) (name : string) (content : string)
    : Disk :=
  {| entries :=
       List.filter (λ e : Path * string,
                      negb (String.eqb (path_str e.1) name)) (entries d)
       ++ [(path_of_string name, content)];
     check_report := check_report d;
     docker_up := docker_up d |}.

(** The backend: unreachable, or it runs the command. Of the tools only
    [gmx check] is scripted: it leaves its report in the mounted
    directory. *)
Definition sim_run (inv : Invocation) (d : Disk) : result string * Disk :=
  if docker_up d then
    match inv_command inv with
    | [_; _; c] =>
        if PyStr.startswith c "gmx check"
        then
          match map_to_list (inv_volumes inv) with
          | [(host, _)] =>
              (Ok "", write_file d (path_str host +:+ "/trajectory_info.txt")
                        (check_report d))
          | _ => (Ok "", d)
          end
        else (Ok "", d)
    | _ => (Ok "", d)
    end
  else (Raise DockerException, d).

(** An archive is kept as the blank-separated list of its member names. *)
Definition sim_getmembers (d : Disk) (archive : Path)
    : result (list string) :=
  content ← sim_open_read d (path_str archive);
  mret (PyStr.split content).

Definition SimEnv : Env := {|
  FS := Disk;
  glob := sim_glob;
  open_read := sim_open_read;
  mkdir := λ _ d, (Ok (), d);
  containers_run := sim_run;
  decode_utf8 := Ok;
  tar_getmembers := sim_getmembers;
  tar_extract := λ _ _ _ d, (Ok (), d);
  rmtree := λ _ d, (Ok (), d);
|}.

End Sim.

(** ** Vocabulary of the statements *)

(** The data lines of a file: the lines that are not comments. *)
Definition data_lines (lines : list string) : list string :=
  filter (λ line, helpers.is_comment line = false) lines.

(** The tokens of a line, as the reader cuts them. *)
Definition tokens_of (line : string) : list string :=
  PyStr.split (PyStr.strip line).

(** All rows have the same number of entries. *)
Definition uniform {A} (data : list (list A)) : Prop :=
  ∀ r r', r ∈ data → r' ∈ data → length r = length r'.

(** The state of a method body, from its parts. *)
Definition state_of `{PyFloat, Env} {O} (o : O) (d : FS) (t : list event)
    : Obj O :=
  {| self := o; world := {| fs := d; trace := t |} |}.

Definition is_savefig `{PyFloat} (c : plt_call) : bool :=
  match c with Savefig _ _ _ _ => true | _ => false end.

(** The calls that draw one chart in [plot_data], the legend apart. *)
Definition chart_calls `{PyFloat} (x y : list float)
    (xlabel ylabel title : string) : list plt_call :=
  [Subplots; AxPlot x y "black" 0.7%Q;
   Xlabel xlabel; Ylabel ylabel; Title title].

(** The calls that set the axis up at the end of [plot_data]. *)
Definition axis_calls `{PyFloat} (left right : float) : list plt_call :=
  [Xlim left right; MinorticksOn; TickParams "both" "both" "in" true true].

(** The chart calls of a piece of trace that holds nothing else. *)
Fixpoint plt_of `{PyFloat} (l : list event) : option (list plt_call) :=
  match l with
  | [] => Some []
  | EPlt c :: l' => cs ← plt_of l'; Some (c :: cs)
  | _ :: _ => None
  end.

(** What a plotting wrapper [m] of [Plots] does for the image file name
    [image]: it leaves the object as it is; it records its entry and then
    only chart calls; when it returns, the last call saves the figure under
    [images_path + image] with a tight bounding box at 300 dots per inch,
    and this is the only save; when it raises, nothing was saved. *)
Definition saves_figure `{PyFloat, Env} (m : M (Obj Plots.t) unit)
    (tag : method) (image : string) : Prop :=
  ∀ s : Obj Plots.t,
    self (m s).2 = self s ∧
    ∃ calls,
      trace (world (m s).2)
        = trace (world s) ++ ECall tag :: (EPlt <$> calls) ∧
      match (m s).1 with
      | Ok _ =>
          ∃ before,
            calls = before ++
              [Savefig (Plots.images_path (self s) +:+ image)
                 "tight" 0.1%Q 300] ∧
            Forall (λ c, is_savefig c = false) before
      | Raise _ => Forall (λ c, is_savefig c = false) calls
      end.

(** The method entries and the container runs of a piece of trace. *)
Definition calls_of `{PyFloat} (t : list event) : list method :=
  omap (λ e, match e with ECall m => Some m | _ => None end) t.

Definition runs_of `{PyFloat} (t : list event) : list Invocation :=
  omap (λ e, match e with ERun inv => Some inv | _ => None end) t.

(** The volume table that binds the host directory [path] to the
    container directory, read-write. *)
Definition mount (path : Path) : gmap Path VolumeSpec :=
  {[ path := {| vol_bind := "/container/data"; vol_mode := "rw" |} ]}.

(** A container run with the fixed image, the container directory as
    working directory and the volume table [vol]. *)
Definition standard_run (vol : gmap Path VolumeSpec) (inv : Invocation)
    : Prop :=
  inv_image inv = "jpmontoya19/gromacs:latest" ∧
  inv_working_dir inv = "/container/data" ∧
  inv_volumes inv = vol.

(** [follows I vol m tags Q]: from every state whose object satisfies [I],
    the method body [m] leaves the object as it is and only adds to the
    trace; every container run it adds is a [standard_run vol]; the methods
    it enters are [tags], in this order, when it returns (and then the
    result satisfies [Q]), and a prefix of [tags] when it raises. *)
Definition follows `{PyFloat, Env} {O A} (I : O → Prop)
    (vol : gmap Path VolumeSpec) (m : M (Obj O) A) (tags : list method)
    (Q : A → Prop) : Prop :=
  ∀ s : Obj O,
    I (self s) →
    self (m s).2 = self s ∧
    ∃ new,
      trace (world (m s).2) = trace (world s) ++ new ∧
      Forall (standard_run vol) (runs_of new) ∧
      match (m s).1 with
      | Ok a => calls_of new = tags ∧ Q a
      | Raise _ => (calls_of new) `prefix_of` tags
      end.

(** The simulation steps of a run, by the flag, and the chart steps. *)
Definition simulation_steps (run_gromacs : bool) : list method :=
  [generate_minimization_data_m; generate_nvt_data_m; generate_npt_data_m]
  ++ (if run_gromacs
      then [generate_final_xtc_file_m; fix_periodicity_m] else [])
  ++ [get_initial_configuration_m; get_latest_configuration_m].

Definition chart_steps : list method :=
  [plot_energy_minimization_m; plot_temperature_m;
   plot_pressure_m; plot_density_m].

(** The command line of a [gmx energy] step. *)
Definition energy_command (selectors input output : string) : list string :=
  ["sh"; "-c";
   "echo " +:+ selectors +:+ " | gmx energy -f " +:+ input +:+
   " -o " +:+ output].

(** The container run of a [GromacsData] object for a command. *)
Definition gromacs_run (g : GromacsData.t) (command : list string)
    (remove : bool) : Invocation :=
  {| inv_image := "jpmontoya19/gromacs:latest";
     inv_command := command;
     inv_working_dir := "/container/data";
     inv_volumes := GromacsData.volume g;
     inv_remove := remove |}.

(** ** Sample data for the examples *)

Module Sample.

Definition work : Path := MkPath ["work"].

(** An XVG file with two comment lines and two data lines. *)
Definition xvg : string :=
  "# gmx energy" +:+ PyStr.nl +:+
  "@ title potential" +:+ PyStr.nl +:+
  "0.0 10.5" +:+ PyStr.nl +:+
  "1.0  -3" +:+ PyStr.nl.

(** A file whose two data lines have two tokens and one token. *)
Definition ragged_xvg : string :=
  "1 2" +:+ PyStr.nl +:+ "3" +:+ PyStr.nl.

(** A file with a token that is not a number. *)
Definition bad_xvg : string :=
  "1 2" +:+ PyStr.nl +:+ "3 x" +:+ PyStr.nl.

(** The report of [gmx check] on a trajectory, and the text left when the
    trajectory is missing. *)
Definition report : string :=
  "Checking file fixed.xtc" +:+ PyStr.nl +:+
  "Last frame       1000 time 2000.000" +:+ PyStr.nl.

Definition report_without_marker : string :=
  "File input/output error:" +:+ PyStr.nl +:+ "fixed.xtc" +:+ PyStr.nl.

Definition files : list (Path * string) :=
  [ (MkPath ["work"; "md_0_2.tpr"], "");
    (MkPath ["work"; "md_0_10.tpr"], "");
    (MkPath ["work"; "md_0_1.tpr"], "");
    (MkPath ["work"; "potential.xvg"], xvg);
    (MkPath ["work"; "temperature.xvg"], xvg);
    (MkPath ["work"; "pressure.xvg"], xvg);
    (MkPath ["work"; "density.xvg"], xvg);
    (MkPath ["work"; "ragged.xvg"], ragged_xvg);
    (MkPath ["work"; "bad.xvg"], bad_xvg);
    (MkPath ["work"; "my_job_1.output.tar.gz"],
     "my_output/a.xtc my_output/a.log") ].

(** A working directory after a complete simulation. *)
Definition disk : Sim.Disk :=
  {| Sim.entries := files;
     Sim.check_report := report;
     Sim.docker_up := true |}.

(** The same directory when [gmx check] finds no frame to report. *)
Definition disk_without_marker : Sim.Disk :=
  {| Sim.entries := files;
     Sim.check_report := report_without_marker;
     Sim.docker_up := true |}.

(** A directory without any topology file. *)
Definition disk_without_tpr : Sim.Disk :=
  {| Sim.entries := [(MkPath ["work"; "potential.xvg"], xvg)];
     Sim.check_report := report;
     Sim.docker_up := true |}.


Definition world (d : Sim.Disk) : @World Sim.SimFloat Sim.SimEnv :=
  @Build_World Sim.SimFloat Sim.SimEnv d [].

(** The objects of the two classes for the directory [work]. *)
Definition plots : Plots.t :=
  {| Plots.path := work;
     Plots.protein := "protein";
     Plots.images_path := "work/images/" |}.

Definition gromacs : GromacsData.t :=
  {| GromacsData.path := work;
     GromacsData.volume :=
       {[ work := {| vol_bind := "/container/data"; vol_mode := "rw" |} ]};
     GromacsData.results_folder := MkPath ["work"; "results"] |}.


Definition gromacs_state (d : Sim.Disk)
    : @Obj GromacsData.t Sim.SimFloat Sim.SimEnv :=
  @Build_Obj GromacsData.t Sim.SimFloat Sim.SimEnv gromacs (world d).

End Sample.

(** ** Further vocabulary and sample data *)

(** Every character of [s] passes the test [p]. *)
Fixpoint all_chars (p : ascii → bool) (s : string) : bool :=
  match s with
  | "" => true
  | String c s' => p c && all_chars p s'
  end.

(** A line of whitespace only. *)
Definition blank_line (line : string) : Prop :=
  all_chars PyStr.isspace line = true.

(** A token as [split] cuts them: not empty, and without whitespace. *)
Definition clean_token (tok : string) : Prop :=
  tok ≠ "" ∧ all_chars (λ c, negb (PyStr.isspace c)) tok = true.






(** The simulated environment on a disk where no folder can be made. *)
Definition ReadOnlyEnv : Env := {|
  FS := Sim.Disk;
  glob := Sim.sim_glob;
  open_read := Sim.sim_open_read;
  mkdir := λ _ d, (Raise OSError, d);
  containers_run := Sim.sim_run;
  decode_utf8 := Ok;
  tar_getmembers := Sim.sim_getmembers;
  tar_extract := λ _ _ _ d, (Ok (), d);
  rmtree := λ _ d, (Ok (), d);
|}.

Module Cases.

(** An XVG file of comments only, one with an empty line after the data,
    and one with a single column. *)
Definition comments_xvg : string :=
  "# gmx energy" +:+ PyStr.nl +:+ "@ title" +:+ PyStr.nl.

Definition blank_xvg : string :=
  "0 10" +:+ PyStr.nl +:+ PyStr.nl.

Definition one_column_xvg : string :=
  "1" +:+ PyStr.nl +:+ "2" +:+ PyStr.nl.

(** A report with two marker lines. *)
Definition report_twice : string :=
  "Reading frame 0" +:+ PyStr.nl +:+
  "Last frame 250 time 500.000" +:+ PyStr.nl +:+
  "Last frame 999 time 0.000" +:+ PyStr.nl.

(** The sample directory with another [potential.xvg]. *)
Definition disk_with (potential : string) : Sim.Disk :=
  {| Sim.entries :=
       [ (MkPath ["work"; "md_0_1.tpr"], "");
         (MkPath ["work"; "potential.xvg"], potential) ];
     Sim.check_report := Sample.report;
     Sim.docker_up := true |}.


(** The sample directory when docker cannot be reached. *)
Definition disk_offline : Sim.Disk :=
  {| Sim.entries := Sample.files;
     Sim.check_report := Sample.report;
     Sim.docker_up := false |}.

Definition read_only_world (d : Sim.Disk)
    : @World Sim.SimFloat ReadOnlyEnv :=
  @Build_World Sim.SimFloat ReadOnlyEnv d [].

End Cases.

(** * Properties *)

(** ** The order on paths *)

Lemma string_compare_refl (s : string) : String.compare s s = Eq.
Proof.
  induction s as [|c s IH]; simpl; [done|].
  unfold Ascii.compare. by rewrite N.compare_refl.
Qed.

Lemma string_compare_lt_le (a b : string) :
  String.compare a b = Lt → String.le a b.
Proof. unfold String.le, String.leb. by intros ->. Qed.

Lemma string_compare_lt_trans (a b c : string) :
  String.compare a b = Lt → String.compare b c = Lt →
  String.compare a c = Lt.
Proof.
  intros Hab Hbc.
  assert (Hac : String.le a c).
  { trans b; by apply string_compare_lt_le. }
  unfold String.le, String.leb in Hac.
  destruct (String.compare a c) eqn:E; [|done|done].
  apply String.compare_eq_iff in E as ->.
  rewrite String.compare_antisym, Hbc in Hab. discriminate.
Qed.

Lemma parts_compare_refl (p : list string) : parts_compare p p = Eq.
Proof.
  induction p as [|a p IH]; simpl; [done|].
  by rewrite string_compare_refl.
Qed.

Lemma parts_compare_antisym (p q : list string) :
  parts_compare q p = CompOpp (parts_compare p q).
Proof.
  revert q. induction p as [|a p IH]; intros [|b q]; simpl; try done.
  rewrite (String.compare_antisym a b).
  destruct (String.compare b a); simpl; auto.
Qed.

Lemma parts_compare_eq (p q : list string) :
  parts_compare p q = Eq → p = q.
Proof.
  revert q. induction p as [|a p IH]; intros [|b q]; simpl; try done.
  destruct (String.compare a b) eqn:E; try done.
  apply String.compare_eq_iff in E as ->.
  intros ?. f_equal. auto.
Qed.

Lemma parts_compare_lt_trans (p q r : list string) :
  parts_compare p q = Lt → parts_compare q r = Lt →
  parts_compare p r = Lt.
Proof.
  revert q r.
  induction p as [|a p IH]; intros [|b q] [|c r]; simpl; try done.
  destruct (String.compare a b) eqn:Eab; try done.
  - apply String.compare_eq_iff in Eab as ->.
    destruct (String.compare b c); try done. apply IH.
  - intros _. destruct (String.compare b c) eqn:Ebc; try done.
    + apply String.compare_eq_iff in Ebc as ->. by rewrite Eab.
    + by rewrite (string_compare_lt_trans a b c).
Qed.

Global Instance path_le_refl : Reflexive path_le.
Proof. intros p. unfold path_le. by rewrite parts_compare_refl. Qed.

Global Instance path_le_trans : Transitive path_le.
Proof.
  intros p q r. unfold path_le. intros Hpq Hqr.
  destruct (parts_compare (parts p) (parts q)) eqn:E1; [| |done].
  - by apply parts_compare_eq in E1 as ->.
  - destruct (parts_compare (parts q) (parts r)) eqn:E2; [| |done].
    + apply parts_compare_eq in E2 as <-. by rewrite E1.
    + by rewrite (parts_compare_lt_trans _ _ _ E1 E2).
Qed.

Global Instance path_le_total : Total path_le.
Proof.
  intros p q. unfold path_le.
  rewrite (parts_compare_antisym (parts p) (parts q)).
  destruct (parts_compare (parts p) (parts q)); simpl; auto.
Qed.

Global Instance path_le_antisym : AntiSymm (=) path_le.
Proof.
  intros [p] [q]. unfold path_le. simpl.
  rewrite (parts_compare_antisym p q).
  destruct (parts_compare p q) eqn:E; simpl; try done.
  intros _ _. f_equal. by apply parts_compare_eq.
Qed.

(** Two files of one directory compare as their names do, both as paths
    and as path strings. *)
Lemma parts_compare_siblings (dir : list string) (a b : string) :
  parts_compare (dir ++ [a]) (dir ++ [b]) = String.compare a b.
Proof.
  induction dir as [|d dir IH]; simpl.
  - by destruct (String.compare a b).
  - by rewrite string_compare_refl.
Qed.



Lemma string_app_nil_l (b : string) : "" +:+ b = b.
Proof. reflexivity. Qed.





(** ** Indexing *)

Lemma py_index_last {A} (l : list A) :
  py_index l (-1) =
    match last l with Some a => Ok a | None => Raise IndexError end.
Proof.
  unfold py_index.
  destruct (last l) as [a|] eqn:E.
  - apply last_Some in E as [l' ->].
    rewrite length_app. simpl.
    replace (Z.of_nat (length l' + 1) + -1)%Z with (Z.of_nat (length l'))
      by lia.
    rewrite Nat2Z.id.
    destruct (Z.leb_spec 0 (Z.of_nat (length l'))); [|lia].
    destruct (Z.ltb_spec (Z.of_nat (length l')) (Z.of_nat (length l' + 1)));
      [|lia].
    simpl. by rewrite list_lookup_middle.
  - apply last_None in E as ->. done.
Qed.

Lemma py_index_first {A} (l : list A) :
  py_index l 0 =
    match l with a :: _ => Ok a | [] => Raise IndexError end.
Proof.
  unfold py_index. destruct l as [|a l]; [done|].
  simpl length. simpl (0 <? 0)%Z. cbv iota.
  destruct (Z.ltb_spec 0 (Z.of_nat (S (length l)))); [done|lia].
Qed.

(** ** File discovery *)


Lemma sorted_strongly (l : list Path) :
  StronglySorted path_le (helpers.sorted l).
Proof. apply (StronglySorted_merge_sort path_le). Qed.

Lemma sorted_perm (l : list Path) : helpers.sorted l ≡ₚ l.
Proof. apply (merge_sort_Permutation path_le). Qed.


(** The last element of the sorted list is a greatest element. *)
Lemma sorted_last (l : list Path) (p : Path) :
  last (helpers.sorted l) = Some p →
  p ∈ l ∧ Forall (λ q, path_le q p) l.
Proof.
  intros Hlast.
  pose proof (sorted_strongly l) as HS.
  pose proof (sorted_perm l) as HP.
  apply last_Some in Hlast as [l' E]. rewrite E in HS, HP.
  apply StronglySorted_app in HS as (Hle & _ & _).
  split.
  - rewrite <- HP. set_solver.
  - rewrite <- HP. apply Forall_app. split.
    + apply Forall_forall. intros q Hq. apply Hle; set_solver.
    + by repeat constructor.
Qed.

Section Discovery.
Context `{EV : Env}.


End Discovery.


Lemma path_name_child (dir : Path) (name : string) :
  path_name (path_child dir name) = name.
Proof. unfold path_name, path_child. simpl. apply last_last. Qed.

Lemma siblings_name_le (dir : Path) (a b : string) :
  path_le (path_child dir a) (path_child dir b) → String.le a b.
Proof.
  unfold path_le, String.le, String.leb. simpl.
  rewrite parts_compare_siblings. by destruct (String.compare a b).
Qed.

(** ** The topology reference *)

Section TopologyReference.
Context `{PF : PyFloat, EV : Env}.

(** What [_find_last_tpr_file] computes, in terms of the sorted list. *)
Lemma find_last_tpr_file_run (g : GromacsData.t) (w : World) :
  GromacsData._find_last_tpr_file {| self := g; world := w |} =
    (match last (helpers.find_files_with_same_pattern (fs w)
                   (GromacsData.path g) "md_0_*.tpr") with
     | Some last_tpr => Ok (path_name last_tpr, last_tpr)
     | None => Raise IndexError
     end, {| self := g; world := w |}).
Proof.
  unfold GromacsData._find_last_tpr_file, attr, in_world, gets, lift_result.
  unfold mbind, M_bind, mret, M_ret. simpl.
  rewrite py_index_last.
  by destruct (last _).
Qed.

(** C4: with at least one match of [md_0_*.tpr] the operation returns the
    last element of the sorted list of matches, which is a match that no
    other match exceeds (and whose name no other name exceeds, the matches
    being files of one directory), together with its name; with no match it
    raises [IndexError]. Neither case changes the object or the world. *)
Theorem find_last_tpr_file_spec (g : GromacsData.t) (w : World) :
  let matches := glob (fs w) (GromacsData.path g) "md_0_*.tpr" in
  let s := {| self := g; world := w |} in
  (GromacsData._find_last_tpr_file s).2 = s ∧
  (matches = [] →
   (GromacsData._find_last_tpr_file s).1 = Raise IndexError) ∧
  (matches ≠ [] →
   ∃ last_tpr,
     (GromacsData._find_last_tpr_file s).1
       = Ok (path_name last_tpr, last_tpr) ∧
     last (helpers.sorted matches) = Some last_tpr ∧
     last_tpr ∈ matches ∧
     Forall (λ q, path_le q last_tpr) matches ∧
     (∀ dir, Forall (λ q, ∃ name, q = path_child dir name) matches →
             Forall (λ q, String.le (path_name q) (path_name last_tpr))
               matches)).
Proof.
  cbv zeta. rewrite find_last_tpr_file_run.
  unfold helpers.find_files_with_same_pattern. cbv zeta. simpl.
  split_and!; [done| |].
  - by intros ->.
  - intros Hne.
    destruct (last (helpers.sorted _)) as [p|] eqn:E.
    + destruct (sorted_last _ _ E) as [Hin Hmax].
      exists p. split_and!; try done.
      intros dir Hdir.
      rewrite Forall_forall in Hdir, Hmax. apply Forall_forall.
      intros q Hq.
      destruct (Hdir q Hq) as [a ->], (Hdir p Hin) as [b ->].
      rewrite !path_name_child.
      by apply (siblings_name_le dir), Hmax.
    + apply last_None in E.
      apply (f_equal length) in E.
      rewrite (Permutation_length (sorted_perm _)) in E.
      by destruct (glob _ _ _).
Qed.

End TopologyReference.

(** ** The XVG reader *)

Section Reader.
Context `{PF : PyFloat}.

Lemma np_array_uniform (data : list (list float)) :
  uniform data →
  ∃ a, np.array data = Ok a ∧ np.tolist a = data ∧
       np.nrows a = length data.
Proof.
  intros Hu. destruct data as [|r rs]; [by exists np.Empty1D|].
  exists (np.Matrix (length r) (r :: rs)). split; [|done].
  unfold np.array.
  assert (forallb (λ r', Nat.eqb (length r') (length r)) rs = true) as ->;
    [|done].
  apply forallb_forall. intros r' Hr'.
  apply Nat.eqb_eq, Hu; [right; by apply list_elem_of_In | left].
Qed.

Lemma np_array_ragged (data : list (list float)) :
  ¬ uniform data → np.array data = Raise ValueError.
Proof.
  intros Hu. destruct data as [|r rs].
  { destruct Hu. intros ?? []%elem_of_nil. }
  unfold np.array.
  destruct (forallb _ rs) eqn:E; [|done].
  destruct Hu. rewrite forallb_forall in E.
  assert (∀ x, x ∈ r :: rs → length x = length r) as Hall.
  { intros x [->|Hx]%elem_of_cons; [done|].
    by apply Nat.eqb_eq, E, list_elem_of_In. }
  intros x y Hx Hy. by rewrite (Hall x), (Hall y).
Qed.

Lemma np_array_ok (data : list (list float)) (a : np.ndarray) :
  np.array data = Ok a → np.tolist a = data ∧ np.nrows a = length data.
Proof.
  unfold np.array. destruct data as [|r rs].
  - by intros [= <-].
  - destruct (forallb _ rs); [|done]. by intros [= <-].
Qed.

Lemma np_array_raises (data : list (list float)) (e : exn) :
  np.array data = Raise e → e = ValueError.
Proof.
  unfold np.array. destruct data as [|r rs]; [done|].
  destruct (forallb _ rs); [done|]. by intros [= <-].
Qed.

Lemma floats_of_inv (tokens : list string) (vs : list float) :
  helpers.floats_of tokens = Ok vs →
  Forall2 (λ t v, float_of_str t = Some v) tokens vs.
Proof.
  revert vs. induction tokens as [|t tokens IH]; simpl; intros vs.
  - intros [= <-]. constructor.
  - destruct (float_of_str t) as [v|] eqn:Et; [|done].
    destruct (helpers.floats_of tokens) as [vs'|] eqn:E; [|done].
    intros [= <-]. constructor; auto.
Qed.

Lemma floats_of_ok (tokens : list string) :
  Forall (λ t, is_Some (float_of_str t)) tokens →
  ∃ vs, helpers.floats_of tokens = Ok vs.
Proof.
  induction 1 as [|t tokens [v Hv] _ [vs IH]]; simpl; [by eexists|].
  rewrite Hv, IH. by eexists.
Qed.


Lemma floats_of_raises (tokens : list string) (e : exn) :
  helpers.floats_of tokens = Raise e → e = ValueError.
Proof.
  induction tokens as [|t tokens IH]; simpl; [done|].
  destruct (float_of_str t); [|by intros [= <-]].
  destruct (helpers.floats_of tokens); [done|]. intros [= <-]. auto.
Qed.

Lemma xvg_rows_inv (lines : list string) (data : list (list float)) :
  helpers.xvg_rows lines = Ok data →
  Forall2 (λ line row, helpers.floats_of (tokens_of line) = Ok row)
    (data_lines lines) data.
Proof.
  unfold data_lines, tokens_of. revert data.
  induction lines as [|line lines IH]; simpl; intros data.
  - intros [= <-]. constructor.
  - rewrite filter_cons.
    destruct (helpers.is_comment line) eqn:Ec.
    + rewrite decide_False by done. apply IH.
    + rewrite decide_True by done.
      destruct (helpers.floats_of _) as [values|] eqn:Ev; [|done].
      destruct (helpers.xvg_rows lines) as [data'|]; [|done].
      intros [= <-]. constructor; auto.
Qed.

Lemma xvg_rows_ok (lines : list string) :
  Forall (λ line, Forall (λ t, is_Some (float_of_str t)) (tokens_of line))
    (data_lines lines) →
  ∃ data, helpers.xvg_rows lines = Ok data.
Proof.
  unfold data_lines, tokens_of.
  induction lines as [|line lines IH]; simpl; [by eexists|].
  rewrite filter_cons.
  destruct (helpers.is_comment line) eqn:Ec.
  - rewrite decide_False by done. apply IH.
  - rewrite decide_True by done. intros [Hl Hls]%Forall_cons.
    destruct (floats_of_ok _ Hl) as [values ->].
    destruct (IH Hls) as [data ->]. by eexists.
Qed.


Lemma xvg_rows_raises (lines : list string) (e : exn) :
  helpers.xvg_rows lines = Raise e → e = ValueError.
Proof.
  induction lines as [|l lines IH]; simpl; [done|].
  destruct (helpers.is_comment l); [auto|].
  destruct (helpers.floats_of _) eqn:E.
  - destruct (helpers.xvg_rows lines); [done|]. intros [= <-]. auto.
  - intros [= <-]. by apply floats_of_raises in E.
Qed.

(** A comment line can be put anywhere without changing the rows. *)
Lemma xvg_rows_skip (before after : list string) (line : string) :
  helpers.is_comment line = true →
  helpers.xvg_rows (before ++ line :: after)
    = helpers.xvg_rows (before ++ after).
Proof.
  intros Hc. induction before as [|l before IH]; simpl.
  - by rewrite Hc.
  - by rewrite IH.
Qed.

Lemma is_comment_marker (rest : string) :
  helpers.is_comment (String "#" rest) = true ∧
  helpers.is_comment (String "@" rest) = true.
Proof. done. Qed.

End Reader.

Lemma Forall2_elem_l {A B} (R : A → B → Prop) (l : list A) (k : list B)
    (x : A) :
  Forall2 R l k → x ∈ l → ∃ y, y ∈ k ∧ R x y.
Proof.
  induction 1 as [|a b l k Hab _ IH]; [by intros ?%elem_of_nil|].
  intros [->|Hx]%elem_of_cons.
  - exists b. split; [left|done].
  - destruct (IH Hx) as (y & Hy & HR). exists y. split; [by right|done].
Qed.

Lemma Forall2_elem_r {A B} (R : A → B → Prop) (l : list A) (k : list B)
    (y : B) :
  Forall2 R l k → y ∈ k → ∃ x, x ∈ l ∧ R x y.
Proof.
  induction 1 as [|a b l k Hab _ IH]; [by intros ?%elem_of_nil|].
  intros [->|Hy]%elem_of_cons.
  - exists a. split; [left|done].
  - destruct (IH Hy) as (x & Hx & HR). exists x. split; [by right|done].
Qed.

Section ReaderClaims.
Context `{PF : PyFloat, EV : Env}.

Lemma read_xvg_files_run (file_path : string) (w : World) :
  helpers.read_xvg_files file_path w =
    (match open_read (fs w) file_path with
     | Ok content => helpers.read_xvg content
     | Raise e => Raise e
     end, w).
Proof.
  unfold helpers.read_xvg_files, read_fs, lift_result, mbind, M_bind.
  by destruct (open_read (fs w) file_path).
Qed.

Lemma xvg_rows_lengths (lines : list string) (data : list (list float)) :
  helpers.xvg_rows lines = Ok data →
  Forall2 (λ line row, length row = length (tokens_of line))
    (data_lines lines) data.
Proof.
  intros H%xvg_rows_inv. eapply Forall2_impl; [done|].
  intros line row Hrow%floats_of_inv. simpl.
  symmetry. by eapply Forall2_length.
Qed.

Lemma read_xvg_ok (content : string) (a : np.ndarray) :
  helpers.read_xvg content = Ok a →
  helpers.xvg_rows (PyStr.readlines content) = Ok (np.tolist a) ∧
  np.nrows a = length (data_lines (PyStr.readlines content)).
Proof.
  unfold helpers.read_xvg, mbind, result_bind.
  destruct (helpers.xvg_rows _) as [data|] eqn:E; [|done].
  intros [-> Hn]%np_array_ok. split; [done|].
  rewrite Hn. symmetry. eapply Forall2_length, xvg_rows_inv, E.
Qed.

Lemma read_xvg_raises (content : string) (e : exn) :
  helpers.read_xvg content = Raise e → e = ValueError.
Proof.
  unfold helpers.read_xvg, mbind, result_bind.
  destruct (helpers.xvg_rows _) as [data|] eqn:E.
  - apply np_array_raises.
  - intros [= <-]. by apply xvg_rows_raises in E.
Qed.

(** The reader returns exactly when every token of every data line is a
    number and the data lines have the same number of tokens. *)
Lemma read_xvg_returns (content : string) :
  Forall (λ line, Forall (λ tok, is_Some (float_of_str tok))
                    (tokens_of line))
    (data_lines (PyStr.readlines content)) →
  uniform (tokens_of <$> data_lines (PyStr.readlines content)) →
  ∃ a, helpers.read_xvg content = Ok a.
Proof.
  intros Hnum Huni.
  destruct (xvg_rows_ok _ Hnum) as [data Hdata].
  destruct (np_array_uniform data) as (a & Ha & _).
  - pose proof (xvg_rows_lengths _ _ Hdata) as Hlen.
    intros r r' Hr Hr'.
    destruct (Forall2_elem_r _ _ _ _ Hlen Hr) as (l & Hl & ->).
    destruct (Forall2_elem_r _ _ _ _ Hlen Hr') as (l' & Hl' & ->).
    apply Huni; apply list_elem_of_fmap; eauto.
  - exists a. unfold helpers.read_xvg. by rewrite Hdata.
Qed.

Lemma read_xvg_ragged (content : string) (line line' : string) :
  Forall (λ line, Forall (λ tok, is_Some (float_of_str tok))
                    (tokens_of line))
    (data_lines (PyStr.readlines content)) →
  line ∈ data_lines (PyStr.readlines content) →
  line' ∈ data_lines (PyStr.readlines content) →
  length (tokens_of line) ≠ length (tokens_of line') →
  helpers.read_xvg content = Raise ValueError.
Proof.
  intros Hnum Hl Hl' Hne.
  destruct (xvg_rows_ok _ Hnum) as [data Hdata].
  unfold helpers.read_xvg. rewrite Hdata. simpl.
  apply np_array_ragged. intros Huni.
  pose proof (xvg_rows_lengths _ _ Hdata) as Hlen.
  destruct (Forall2_elem_l _ _ _ _ Hlen Hl) as (r & Hr & Er).
  destruct (Forall2_elem_l _ _ _ _ Hlen Hl') as (r' & Hr' & Er').
  apply Hne. rewrite <- Er, <- Er'. by apply Huni.
Qed.


(** C3 (amended): the loop over the lines checks no column count and
    accepts rows of any lengths, but the conversion of the rows to a float
    array at the end does: when two data lines have different numbers of
    (numeric) tokens the reader raises [ValueError], and it returns, with
    rows as long as their lines have tokens, when all data lines have the
    same number of tokens. *)
Theorem read_xvg_files_column_count
    (file_path : string) (w : World) (content : string) :
  open_read (fs w) file_path = Ok content →
  Forall (λ line, Forall (λ tok, is_Some (float_of_str tok))
                    (tokens_of line))
    (data_lines (PyStr.readlines content)) →
  let lines := data_lines (PyStr.readlines content) in
  let out := (helpers.read_xvg_files file_path w).1 in
  (∃ data, helpers.xvg_rows (PyStr.readlines content) = Ok data) ∧
  (∀ line line', line ∈ lines → line' ∈ lines →
     length (tokens_of line) ≠ length (tokens_of line') →
     out = Raise ValueError) ∧
  (uniform (tokens_of <$> lines) →
   ∃ a, out = Ok a ∧
        Forall2 (λ line row, length row = length (tokens_of line))
          lines (np.tolist a)).
Proof.
  intros Hopen Hnum. cbv zeta. rewrite read_xvg_files_run, Hopen. simpl.
  split_and!.
  - by apply xvg_rows_ok.
  - intros line line'. by apply read_xvg_ragged.
  - intros Huni. destruct (read_xvg_returns _ Hnum Huni) as [a Ha].
    exists a. split; [done|].
    apply read_xvg_ok in Ha as [Hrows _]. by apply xvg_rows_lengths.
Qed.

End ReaderClaims.


(** C3 (as stated) fails: the file with the lines [1 2] and [3], all
    tokens being numbers, makes the reader raise. *)
Lemma read_xvg_files_ragged_raises :
  tokens_of <$> data_lines (PyStr.readlines Sample.ragged_xvg)
    = [["1"; "2"]; ["3"]] ∧
  open_read (fs (Sample.world Sample.disk)) "work/ragged.xvg"
    = Ok Sample.ragged_xvg ∧
  (helpers.read_xvg_files "work/ragged.xvg" (Sample.world Sample.disk)).1
    = Raise ValueError.
Proof. split_and!; reflexivity. Qed.

(** The amended statement at the same file. *)
Lemma read_xvg_files_column_count_witness :
  open_read (fs (Sample.world Sample.disk)) "work/ragged.xvg"
    = Ok Sample.ragged_xvg ∧
  (helpers.read_xvg_files "work/ragged.xvg" (Sample.world Sample.disk)).1
    = Raise ValueError.
Proof.
  assert (Hopen : open_read (fs (Sample.world Sample.disk))
                    "work/ragged.xvg" = Ok Sample.ragged_xvg)
    by reflexivity.
  split; [exact Hopen|].
  assert (Hnum : Forall (λ line, Forall (λ tok,
                    is_Some (float_of_str (PyFloat := Sim.SimFloat) tok))
                    (tokens_of line))
                   (data_lines (PyStr.readlines Sample.ragged_xvg))).
  { apply (bool_decide_unpack _). vm_compute. exact I. }
  destruct (read_xvg_files_column_count _ _ _ Hopen Hnum)
    as (_ & Hragged & _).
  apply (Hragged ("1 2" +:+ PyStr.nl) ("3" +:+ PyStr.nl)).
  - vm_compute. left.
  - vm_compute. right. left.
  - vm_compute. discriminate.
Defined.

(** ** Charts *)

Lemma py_index_nat {A} (l : list A) (i : nat) :
  py_index l (Z.of_nat i) =
    match l !! i with Some a => Ok a | None => Raise IndexError end.
Proof.
  unfold py_index.
  destruct (Z.ltb_spec (Z.of_nat i) 0); [lia|].
  destruct (Z.leb_spec 0 (Z.of_nat i)); [|lia].
  rewrite Nat2Z.id.
  destruct (Z.ltb_spec (Z.of_nat i) (Z.of_nat (length l))); simpl.
  - done.
  - rewrite lookup_ge_None_2; [done|lia].
Qed.

Lemma py_index_1 {A} (l : list A) :
  py_index l 1 =
    match l !! 1%nat with Some a => Ok a | None => Raise IndexError end.
Proof. apply (py_index_nat l 1). Qed.

Lemma py_index_2 {A} (l : list A) :
  py_index l 2 =
    match l !! 2%nat with Some a => Ok a | None => Raise IndexError end.
Proof. apply (py_index_nat l 2). Qed.


Ltac run_monad :=
  unfold in_world, attr, gets, emit, logging_info, modify, lift_result,
    raise, on_fs, read_fs, mbind, M_bind, mret, M_ret;
  simpl.

Section Charts.
Context `{PF : PyFloat, EV : Env}.

(** [plot_data] for series of equal length, a first and a last [x] and at
    least three titles. *)
Lemma plot_data_ok (x y : list float) (t0 t1 t2 : string)
    (rest : list string) (left right : float) (o : Plots.t) (w : World) :
  length x = length y →
  head x = Some left → last x = Some right →
  Plots.plot_data x y (t0 :: t1 :: t2 :: rest) {| self := o; world := w |}
  = (Ok Plots.Fig,
     state_of o (fs w)
       (trace w ++ (EPlt <$>
          chart_calls x y t0 t1 t2 ++
          (if Nat.eqb (length (t0 :: t1 :: t2 :: rest)) 4
           then [Legend (List.last (t0 :: t1 :: t2 :: rest) "")] else []) ++
          axis_calls left right))).
Proof.
  intros Hlen Hhead Hlast.
  unfold Plots.plot_data, Plots.ax_plot, Plots.plt, state_of.
  rewrite py_index_first, py_index_1, py_index_2, !py_index_last, Hlast.
  apply Nat.eqb_eq in Hlen. rewrite Hlen.
  destruct x as [|x0 x]; [done|]. injection Hhead as ->.
  run_monad.
  destruct rest as [|t3 [|t4 rest]]; simpl;
    rewrite <- ?app_assoc; simpl; try done.
Qed.

(** [plot_data] with exactly three titles, in every case. *)
Lemma plot_data_three (x y : list float) (t0 t1 t2 : string)
    (o : Plots.t) (w : World) :
  Plots.plot_data x y [t0; t1; t2] {| self := o; world := w |} =
    if Nat.eqb (length x) (length y) then
      match head x, last x with
      | Some x0, Some xn =>
          (Ok Plots.Fig,
           state_of o (fs w)
             (trace w ++ (EPlt <$>
                chart_calls x y t0 t1 t2 ++ axis_calls x0 xn)))
      | _, _ =>
          (Raise IndexError,
           state_of o (fs w)
             (trace w ++ (EPlt <$> chart_calls x y t0 t1 t2)))
      end
    else (Raise ValueError, state_of o (fs w) (trace w ++ [EPlt Subplots])).
Proof.
  destruct (Nat.eqb (length x) (length y)) eqn:Hlen.
  - destruct (head x) as [x0|] eqn:Hhead, (last x) as [xn|] eqn:Hlast.
    + apply Nat.eqb_eq in Hlen.
      by rewrite (plot_data_ok _ _ _ _ _ _ x0 xn).
    + apply last_None in Hlast as ->. done.
    + destruct x; [|done]. done.
    + destruct x; [|done].
      unfold Plots.plot_data, Plots.ax_plot, Plots.plt, state_of.
      rewrite Hlen. run_monad. by rewrite <- !app_assoc.
  - unfold Plots.plot_data, Plots.ax_plot, Plots.plt, state_of.
    rewrite Hlen. by run_monad.
Qed.

End Charts.

Lemma plt_of_sound `{PF : PyFloat} (l : list event)
    (calls : list plt_call) :
  plt_of l = Some calls → l = EPlt <$> calls.
Proof.
  revert calls. induction l as [|e l IH]; simpl; intros calls.
  - by intros [= <-].
  - destruct e as [| | |c]; try done.
    destruct (plt_of l) as [cs|]; [|done].
    intros [= <-]. simpl. f_equal. by apply IH.
Qed.

(** The end of a wrapper's proof: the trace is the old one, the entry
    event and chart calls, none of which saves, except the last one when
    the wrapper returned. *)
Ltac close_wrapper :=
  split; [done|];
  rewrite <- ?app_assoc; simpl;
  eexists; split;
  [ do 2 f_equal; apply plt_of_sound; reflexivity
  | first
      [ by repeat constructor
      | match goal with
        | |- ∃ before, ?calls = _ ∧ _ =>
            exists (removelast calls); split;
            [reflexivity | by repeat constructor]
        end ] ].

Ltac run_wrapper :=
  intros [o [d t]];
  unfold Plots.plt; run_monad;
  rewrite read_xvg_files_run; simpl;
  destruct (open_read d _) as [content|?]; simpl; [|close_wrapper];
  destruct (helpers.read_xvg content) as [a|?]; simpl; [|close_wrapper];
  destruct (np.column a 0) as [col0|?]; simpl; [|close_wrapper];
  destruct (np.column a 1) as [col1|?]; simpl; [|close_wrapper];
  rewrite plot_data_three;
  match goal with
  | |- context [head ?x] =>
      destruct (Nat.eqb (length x) (length col1));
      [destruct (head x), (last x)|]
  end;
  unfold state_of; simpl; close_wrapper.

Section Wrappers.
Context `{PF : PyFloat, EV : Env}.

Lemma plot_energy_minimization_saves :
  saves_figure Plots.plot_energy_minimization
    plot_energy_minimization_m "minimization.png".
Proof. unfold Plots.plot_energy_minimization. run_wrapper. Qed.

Lemma plot_temperature_saves :
  saves_figure Plots.plot_temperature plot_temperature_m "temperature.png".
Proof. unfold Plots.plot_temperature. run_wrapper. Qed.

Lemma plot_pressure_saves :
  saves_figure Plots.plot_pressure plot_pressure_m "pressure.png".
Proof. unfold Plots.plot_pressure. run_wrapper. Qed.

Lemma plot_density_saves :
  saves_figure Plots.plot_density plot_density_m "density.png".
Proof. unfold Plots.plot_density. run_wrapper. Qed.

End Wrappers.

Section ChartClaims.
Context `{PF : PyFloat, EV : Env}.





End ChartClaims.



(** ** A small logic of traces *)

Section TraceLogic.
Context `{PF : PyFloat, EV : Env}.

Lemma calls_of_app (a b : list event) :
  calls_of (a ++ b) = calls_of a ++ calls_of b.
Proof. apply omap_app. Qed.

Lemma runs_of_app (a b : list event) :
  runs_of (a ++ b) = runs_of a ++ runs_of b.
Proof. apply omap_app. Qed.

Context {O : Type} (I : O → Prop) (vol : gmap Path VolumeSpec).

Lemma follows_ret {A} (a : A) (Q : A → Prop) :
  Q a → follows I vol (mret a) [] Q.
Proof.
  intros HQ s _. split; [done|]. exists []. simpl.
  rewrite app_nil_r. by split_and!.
Qed.

Lemma follows_bind {A B} (m : M (Obj O) A) (f : A → M (Obj O) B)
    (tags1 tags2 tags : list method) (Q1 : A → Prop) (Q2 : B → Prop) :
  follows I vol m tags1 Q1 →
  tags = tags1 ++ tags2 →
  (∀ a, Q1 a → follows I vol (f a) tags2 Q2) →
  follows I vol (m ≫= f) tags Q2.
Proof.
  intros Hm -> Hf s Hs.
  destruct (Hm s Hs) as (Hself & new1 & Htrace & Hruns & Hres).
  unfold mbind, M_bind.
  destruct (m s) as [[a|e] s1]; simpl in *.
  - destruct Hres as [Hcalls HQ1].
    assert (Hs1 : I (self s1)) by by rewrite Hself.
    destruct (Hf a HQ1 s1 Hs1) as (Hself2 & new2 & Htrace2 & Hruns2 & Hres2).
    split; [by rewrite Hself2|].
    exists (new1 ++ new2). split_and!.
    + by rewrite Htrace2, Htrace, app_assoc.
    + rewrite runs_of_app. by apply Forall_app.
    + rewrite calls_of_app, Hcalls.
      destruct ((f a s1).1); [|by apply prefix_app].
      destruct Hres2 as [-> HQ2]. done.
  - split; [done|]. exists new1. split_and!; try done.
    by apply prefix_app_r.
Qed.

Lemma follows_weaken {A} (m : M (Obj O) A) (tags : list method)
    (Q Q' : A → Prop) :
  follows I vol m tags Q → (∀ a, Q a → Q' a) → follows I vol m tags Q'.
Proof.
  intros Hm HQ s Hs.
  destruct (Hm s Hs) as (Hself & new & Htrace & Hruns & Hres).
  split; [done|]. exists new. split_and!; try done.
  destruct ((m s).1); [|done]. destruct Hres. auto.
Qed.

(** A world action seen from a method body. *)
Lemma follows_in_world {A} (m : M World A) (tags : list method)
    (Q : A → Prop) :
  (∀ w, ∃ new,
     trace (m w).2 = trace w ++ new ∧
     Forall (standard_run vol) (runs_of new) ∧
     match (m w).1 with
     | Ok a => calls_of new = tags ∧ Q a
     | Raise _ => (calls_of new) `prefix_of` tags
     end) →
  follows I vol (in_world m) tags Q.
Proof.
  intros Hm [o w] _. unfold in_world. simpl.
  destruct (Hm w) as (new & Htrace & Hruns & Hres).
  destruct (m w) as [r w']; simpl in *.
  split; [done|]. by exists new.
Qed.

(** A world action that adds nothing to the trace. *)
Lemma follows_silent {A} (m : M World A) (Q : A → Prop) :
  (∀ w, trace (m w).2 = trace w) →
  (∀ w a, (m w).1 = Ok a → Q a) →
  follows I vol (in_world m) [] Q.
Proof.
  intros Htrace HQ. apply follows_in_world. intros w.
  exists []. rewrite app_nil_r. split_and!; [done|constructor|].
  destruct ((m w).1) eqn:E; [|done]. split; [done|]. by eapply HQ.
Qed.

Lemma follows_entry (tag : method) :
  follows I vol (in_world (emit (ECall tag))) [tag] (λ _, True).
Proof.
  apply follows_in_world. intros w. exists [ECall tag].
  split_and!; [done|constructor|done].
Qed.

Lemma follows_log (msg : string) :
  follows I vol (in_world (logging_info msg)) [] (λ _, True).
Proof.
  apply follows_in_world. intros w. exists [ELog msg].
  split_and!; [done|constructor|done].
Qed.

Lemma follows_attr {A} (f : O → A) :
  follows I vol (attr f) [] (λ v, ∃ o, I o ∧ v = f o).
Proof.
  intros s Hs. split; [done|]. exists []. simpl.
  rewrite app_nil_r. split_and!; [done|constructor|done|by eexists].
Qed.

Lemma follows_lift_result {A} (r : result A) :
  follows I vol (lift_result r) [] (λ a, r = Ok a).
Proof.
  intros s Hs. split; [done|]. exists []. simpl.
  rewrite app_nil_r. split_and!; [done|constructor|].
  destruct r; [done|]. apply prefix_nil.
Qed.

(** A method of another object, called from a method body. *)
Lemma follows_call {O' A} (I' : O' → Prop) (g : O') (m : M (Obj O') A)
    (tags : list method) (Q : A → Prop) :
  follows I' vol m tags Q → I' g →
  follows I vol (call g m) tags (λ r, Q r.1 ∧ r.2 = g).
Proof.
  intros Hm Hg. apply follows_in_world. intros w. unfold run_obj.
  destruct (Hm {| self := g; world := w |} Hg)
    as (Hself & new & Htrace & Hruns & Hres).
  destruct (m _) as [[a|e] s']; simpl in *; exists new;
    split_and!; try done; by destruct Hres.
Qed.

End TraceLogic.

(** ** The methods of [GromacsData] *)

(** One step of a method body: the first action by one of the lemmas
    [prim], then the rest. *)
Ltac follow_step prim :=
  eapply follows_bind; [prim | reflexivity | intros ? ?].

Section GromacsMethods.
Context `{PF : PyFloat, EV : Env} (vol : gmap Path VolumeSpec).

Abbreviation uses_vol :=
  (λ g : GromacsData.t, GromacsData.volume g = vol).

Lemma follows_log_last (command : list string) :
  follows uses_vol vol (GromacsData.log_last command) [] (λ _, True).
Proof.
  unfold GromacsData.log_last.
  follow_step ltac:(apply follows_lift_result). apply follows_log.
Qed.

Lemma follows_run_container (command : list string) (remove : bool) :
  follows uses_vol vol
    (GromacsData._run_gromacs_container command None vol remove)
    [] (λ _, True).
Proof.
  apply follows_in_world. intros w.
  unfold GromacsData._run_gromacs_container. run_monad.
  destruct (containers_run _ (fs w)) as [[out|e] d]; simpl;
    eexists [ERun _]; split_and!; try done;
    try (by repeat constructor); apply prefix_nil.
Qed.

Lemma follows_volume :
  follows uses_vol vol (attr GromacsData.volume) [] (λ v, v = vol).
Proof.
  eapply follows_weaken; [apply follows_attr|].
  by intros v (g & Hg & ->).
Qed.

Lemma follows_find_last_tpr_file :
  follows uses_vol vol GromacsData._find_last_tpr_file [] (λ _, True).
Proof.
  intros [g w] _. rewrite find_last_tpr_file_run. simpl.
  split; [done|]. exists []. rewrite app_nil_r.
  split_and!; [done|constructor|].
  destruct (last _); [done|]. apply prefix_nil.
Qed.

Lemma extract_xtc_members_trace (step : Path) (dest : string)
    (members xtc_files : list string) (w : World) :
  trace (GromacsData.extract_xtc_members step dest members xtc_files w).2
  = trace w.
Proof.
  revert xtc_files w.
  induction members as [|name rest IH]; intros xtc_files w; simpl; [done|].
  destruct (PyStr.endswith name ".xtc"); [|apply IH].
  run_monad. destruct (tar_extract _ _ _ (fs w)) as [[[]|e] d]; simpl;
    [|done].
  by rewrite IH.
Qed.

Lemma extract_xtc_steps_trace (steps : list Path) (dest : string)
    (xtc_files : list string) (w : World) :
  trace (GromacsData.extract_xtc_steps steps dest xtc_files w).2 = trace w.
Proof.
  revert xtc_files w.
  induction steps as [|step rest IH]; intros xtc_files w; simpl; [done|].
  run_monad. destruct (tar_getmembers (fs w) step) as [members|e]; [|done].
  pose proof (extract_xtc_members_trace step dest members xtc_files w) as H.
  destruct (GromacsData.extract_xtc_members _ _ _ _ w) as [[xtc|e] w'];
    simpl in *; [|done].
  by rewrite IH.
Qed.

Lemma on_fs_trace {A} (op : FS → result A * FS) (w : World) :
  trace (on_fs op w).2 = trace w.
Proof. unfold on_fs. by destruct (op (fs w)). Qed.

(** The steps that a body of [GromacsData] is made of. *)
Ltac gromacs_prim :=
  first
    [ apply follows_entry
    | apply follows_log
    | apply follows_log_last
    | apply follows_volume
    | apply follows_run_container
    | apply follows_find_last_tpr_file
    | apply follows_lift_result
    | apply follows_attr
    | apply (follows_silent _ _ _ (λ _, True));
      [ intros;
        first [ apply on_fs_trace | apply extract_xtc_steps_trace
              | reflexivity ]
      | done ] ].

Ltac follow_gromacs :=
  cbv zeta;
  repeat first
    [ apply follows_ret; done
    | gromacs_prim
    | follow_step gromacs_prim; cbv beta in *; subst
    | match goal with
      | |- follows _ _ (let '(_, _) := ?p in _) _ _ => destruct p
      end ].

Lemma follows_generate_minimization_data :
  follows uses_vol vol GromacsData.generate_minimization_data
    [generate_minimization_data_m] (λ _, True).
Proof. unfold GromacsData.generate_minimization_data. follow_gromacs. Qed.

Lemma follows_generate_nvt_data :
  follows uses_vol vol GromacsData.generate_nvt_data
    [generate_nvt_data_m] (λ _, True).
Proof. unfold GromacsData.generate_nvt_data. follow_gromacs. Qed.

Lemma follows_generate_npt_data :
  follows uses_vol vol GromacsData.generate_npt_data
    [generate_npt_data_m] (λ _, True).
Proof. unfold GromacsData.generate_npt_data. follow_gromacs. Qed.

Lemma follows_generate_final_xtc_file :
  follows uses_vol vol GromacsData.generate_final_xtc_file
    [generate_final_xtc_file_m] (λ _, True).
Proof. unfold GromacsData.generate_final_xtc_file. follow_gromacs. Qed.

Lemma follows_fix_periodicity :
  follows uses_vol vol GromacsData.fix_periodicity
    [fix_periodicity_m] (λ _, True).
Proof. unfold GromacsData.fix_periodicity. follow_gromacs. Qed.

Lemma follows_get_initial_configuration :
  follows uses_vol vol GromacsData.get_initial_configuration
    [get_initial_configuration_m] (λ _, True).
Proof. unfold GromacsData.get_initial_configuration. follow_gromacs. Qed.

Lemma follows_get_latest_configuration :
  follows uses_vol vol GromacsData.get_latest_configuration
    [get_latest_configuration_m] (λ _, True).
Proof. unfold GromacsData.get_latest_configuration. follow_gromacs. Qed.

End GromacsMethods.

(** ** The energy reports *)

Ltac run_gromacs_body :=
  unfold GromacsData.log_last, GromacsData._run_gromacs_container,
    gromacs_run, energy_command;
  rewrite ?py_index_last; run_monad.

Section EnergyReports.
Context `{PF : PyFloat, EV : Env}.

(** C7: each energy-report operation logs and submits one shell command
    that pipes the fixed selector pair into [gmx energy] with the fixed
    input and output file: [10 0], [em.edr] and [potential.xvg] for the
    minimization (the only run with [remove=True]); [16 0], [nvt.edr] and
    [temperature.xvg] for NVT; [18 0], [npt.edr] and [pressure.xvg] and
    then, when the pressure run returned, [24 0], [npt.edr] and
    [density.xvg] for NPT. *)
Theorem energy_report_commands (g : GromacsData.t) (w : World) :
  let s := {| self := g; world := w |} in
  let pressure :=
    gromacs_run g (energy_command "18 0" "npt.edr" "pressure.xvg") false in
  trace (world (GromacsData.generate_minimization_data s).2)
  = trace w ++
    [ECall generate_minimization_data_m;
     ELog "echo 10 0 | gmx energy -f em.edr -o potential.xvg";
     ERun (gromacs_run g
             (energy_command "10 0" "em.edr" "potential.xvg") true)] ∧
  trace (world (GromacsData.generate_nvt_data s).2)
  = trace w ++
    [ECall generate_nvt_data_m;
     ELog "echo 16 0 | gmx energy -f nvt.edr -o temperature.xvg";
     ERun (gromacs_run g
             (energy_command "16 0" "nvt.edr" "temperature.xvg") false)] ∧
  trace (world (GromacsData.generate_npt_data s).2)
  = trace w ++
    [ECall generate_npt_data_m;
     ELog "echo 18 0 | gmx energy -f npt.edr -o pressure.xvg";
     ERun pressure] ++
    match containers_run pressure (fs w) with
    | (Ok out, _) =>
        match decode_utf8 out with
        | Ok _ =>
            [ELog "echo 24 0 | gmx energy -f npt.edr -o density.xvg";
             ERun (gromacs_run g
                     (energy_command "24 0" "npt.edr" "density.xvg")
                     false)]
        | Raise _ => []
        end
    | (Raise _, _) => []
    end.
Proof.
  cbv zeta. split_and!.
  - unfold GromacsData.generate_minimization_data. run_gromacs_body.
    destruct (containers_run _ (fs w)) as [[out|e] d]; simpl;
      [destruct (decode_utf8 out)|]; simpl;
      by rewrite <- ?app_assoc.
  - unfold GromacsData.generate_nvt_data. run_gromacs_body.
    destruct (containers_run _ (fs w)) as [[out|e] d]; simpl;
      [destruct (decode_utf8 out)|]; simpl;
      by rewrite <- ?app_assoc.
  - unfold GromacsData.generate_npt_data. run_gromacs_body.
    destruct (containers_run _ (fs w)) as [[out|e] d]; simpl;
      [destruct (decode_utf8 out); simpl|].
    + destruct (containers_run _ d) as [[out'|e] d']; simpl;
        [destruct (decode_utf8 out')|]; simpl;
        by rewrite <- ?app_assoc.
    + by rewrite <- ?app_assoc.
    + by rewrite <- ?app_assoc.
Qed.

End EnergyReports.

(** ** The orchestrator *)

Section Orchestrator.
Context `{PF : PyFloat, EV : Env}.

Abbreviation runs_here p flag :=
  (λ o : LigandPlots.t,
     LigandPlots.path o = p ∧ LigandPlots.run_gromacs o = flag).

Lemma follows_assoc {O A B C} (I : O → Prop) (vol : gmap Path VolumeSpec)
    (m : M (Obj O) A) (f : A → M (Obj O) B) (h : B → M (Obj O) C)
    (tags : list method) (Q : C → Prop) :
  follows I vol (m ≫= λ a, f a ≫= h) tags Q →
  follows I vol ((m ≫= f) ≫= h) tags Q.
Proof.
  intros H s Hs. specialize (H s Hs). revert H.
  unfold mbind, M_bind. by destruct (m s) as [[a|e] s'].
Qed.

Lemma follows_ret_bind {O A B} (I : O → Prop) (vol : gmap Path VolumeSpec)
    (a : A) (h : A → M (Obj O) B) (tags : list method) (Q : B → Prop) :
  follows I vol (h a) tags Q → follows I vol (mret a ≫= h) tags Q.
Proof. intros H s Hs. apply (H s Hs). Qed.

Lemma GromacsData_init_spec (path : Path) (w : World) :
  trace (GromacsData.__init__ path w).2 = trace w ∧
  ∀ g, (GromacsData.__init__ path w).1 = Ok g →
       GromacsData.path g = path ∧ GromacsData.volume g = mount path.
Proof.
  unfold GromacsData.__init__, helpers.create_folder. run_monad.
  destruct (mkdir _ (fs w)) as [[[]|e] d]; simpl; [|done].
  split; [done|]. by intros g [= <-].
Qed.

Lemma Plots_init_trace (path : Path) (protein : string) (w : World) :
  trace (Plots.__init__ path protein w).2 = trace w.
Proof.
  unfold Plots.__init__, helpers.create_folder. run_monad.
  by destruct (mkdir _ (fs w)) as [[[]|e] d].
Qed.

(** A wrapper of [Plots] enters itself and runs no container. *)
Lemma saves_figure_follows (vol : gmap Path VolumeSpec)
    (m : M (Obj Plots.t) unit) (tag : method) (image : string) :
  saves_figure m tag image →
  follows (λ _, True) vol m [tag] (λ _, True).
Proof.
  intros Hm s _. destruct (Hm s) as (Hself & calls & Htrace & _).
  split; [done|]. exists ([ECall tag] ++ (EPlt <$> calls)).
  assert (Hc : calls_of (EPlt <$> calls) = []).
  { clear. induction calls; simpl; auto. }
  assert (Hr : runs_of (EPlt <$> calls) = []).
  { clear. induction calls; simpl; auto. }
  rewrite runs_of_app, calls_of_app, Hc, Hr.
  split_and!; [done|constructor|]. by destruct ((m s).1).
Qed.

Lemma follows_path (p : Path) (flag : bool) (vol : gmap Path VolumeSpec) :
  follows (runs_here p flag) vol (attr LigandPlots.path) [] (λ v, v = p).
Proof.
  eapply follows_weaken; [apply follows_attr|].
  by intros v (o & [Hp _] & ->).
Qed.

Lemma follows_flag (p : Path) (flag : bool) (vol : gmap Path VolumeSpec) :
  follows (runs_here p flag) vol (attr LigandPlots.run_gromacs) []
    (λ v, v = flag).
Proof.
  eapply follows_weaken; [apply follows_attr|].
  by intros v (o & [_ Hf] & ->).
Qed.

Lemma follows_gromacs_init {O} (I : O → Prop) (p : Path) :
  follows I (mount p) (in_world (GromacsData.__init__ p)) []
    (λ g, GromacsData.volume g = mount p).
Proof.
  apply follows_silent.
  - intros w. apply (proj1 (GromacsData_init_spec p w)).
  - intros w g Hg. by destruct (proj2 (GromacsData_init_spec p w) g Hg).
Qed.

Lemma follows_plots_init {O} (I : O → Prop) (vol : gmap Path VolumeSpec)
    (p : Path) (protein : string) :
  follows I vol (in_world (Plots.__init__ p protein)) [] (λ _, True).
Proof.
  apply follows_silent; [|done]. intros w. apply Plots_init_trace.
Qed.

Lemma follows_call_gromacs {O A} (I : O → Prop)
    (vol : gmap Path VolumeSpec) (g : GromacsData.t)
    (m : M (Obj GromacsData.t) A) (tags : list method) (Q : A → Prop) :
  follows (λ g, GromacsData.volume g = vol) vol m tags Q →
  GromacsData.volume g = vol →
  follows I vol (call g m) tags (λ r, Q r.1 ∧ r.2 = g).
Proof.
  apply (follows_call I vol (λ g, GromacsData.volume g = vol)).
Qed.

Lemma follows_call_plots {O} (I : O → Prop) (vol : gmap Path VolumeSpec)
    (plots : Plots.t) (m : M (Obj Plots.t) unit) (tag : method)
    (image : string) :
  saves_figure m tag image →
  follows I vol (call plots m) [tag] (λ r, True ∧ r.2 = plots).
Proof.
  intros Hm.
  apply (follows_call I vol (λ _, True) plots m [tag] (λ _, True));
    [|done].
  by eapply saves_figure_follows.
Qed.

Ltac orchestrator_prim :=
  idtac;
  lazymatch goal with
  | |- follows _ _ (in_world (logging_info _)) _ _ => apply follows_log
  | |- follows _ _ (attr LigandPlots.path) _ _ => apply follows_path
  | |- follows _ _ (attr LigandPlots.run_gromacs) _ _ => apply follows_flag
  | |- follows _ _ (attr _) _ _ => apply follows_attr
  | |- follows _ _ (in_world (GromacsData.__init__ _)) _ _ =>
      apply follows_gromacs_init
  | |- follows _ _ (in_world (Plots.__init__ _ _)) _ _ =>
      apply follows_plots_init
  | |- follows _ _ (call _ GromacsData.generate_minimization_data) _ _ =>
      eapply follows_call_gromacs;
      [apply follows_generate_minimization_data | done]
  | |- follows _ _ (call _ GromacsData.generate_nvt_data) _ _ =>
      eapply follows_call_gromacs; [apply follows_generate_nvt_data | done]
  | |- follows _ _ (call _ GromacsData.generate_npt_data) _ _ =>
      eapply follows_call_gromacs; [apply follows_generate_npt_data | done]
  | |- follows _ _ (call _ GromacsData.generate_final_xtc_file) _ _ =>
      eapply follows_call_gromacs;
      [apply follows_generate_final_xtc_file | done]
  | |- follows _ _ (call _ GromacsData.fix_periodicity) _ _ =>
      eapply follows_call_gromacs; [apply follows_fix_periodicity | done]
  | |- follows _ _ (call _ GromacsData.get_initial_configuration) _ _ =>
      eapply follows_call_gromacs;
      [apply follows_get_initial_configuration | done]
  | |- follows _ _ (call _ GromacsData.get_latest_configuration) _ _ =>
      eapply follows_call_gromacs;
      [apply follows_get_latest_configuration | done]
  | |- follows _ _ (call _ Plots.plot_energy_minimization) _ _ =>
      eapply follows_call_plots; apply plot_energy_minimization_saves
  | |- follows _ _ (call _ Plots.plot_temperature) _ _ =>
      eapply follows_call_plots; apply plot_temperature_saves
  | |- follows _ _ (call _ Plots.plot_pressure) _ _ =>
      eapply follows_call_plots; apply plot_pressure_saves
  | |- follows _ _ (call _ Plots.plot_density) _ _ =>
      eapply follows_call_plots; apply plot_density_saves
  end.

Ltac tidy :=
  cbv beta in *;
  repeat match goal with
         | H : _ ∧ _ |- _ => destruct H
         | x : (_ * _)%type |- _ => destruct x; simpl in *
         | H : ?a = _ |- _ => is_var a; subst a
         end.

Ltac follow_orchestrator :=
  repeat
    (cbv iota;
     lazymatch goal with
     | |- follows _ _ (mret _) _ _ => apply follows_ret; done
     | |- follows _ _ ((_ ≫= _) ≫= _) _ _ => apply follows_assoc
     | |- follows _ _ (mret _ ≫= _) _ _ => apply follows_ret_bind
     | |- follows _ _ (_ ≫= _) _ _ => follow_step orchestrator_prim; tidy
     end).

Lemma follows_generate_gromacs_data (p : Path) (flag : bool) :
  follows (runs_here p flag) (mount p) LigandPlots.generate_gromacs_data
    (simulation_steps flag) (λ _, True).
Proof.
  unfold LigandPlots.generate_gromacs_data, LigandPlots.info.
  destruct flag; follow_orchestrator.
Qed.

Lemma follows_generate_ligand_plots (p : Path) (flag : bool)
    (vol : gmap Path VolumeSpec) :
  follows (runs_here p flag) vol LigandPlots.generate_ligand_plots
    chart_steps (λ _, True).
Proof.
  unfold LigandPlots.generate_ligand_plots, LigandPlots.info.
  follow_orchestrator.
Qed.

Lemma follows_Run (p : Path) (flag : bool) :
  follows (runs_here p flag) (mount p) LigandPlots.Run
    (simulation_steps flag ++ chart_steps) (λ _, True).
Proof.
  unfold LigandPlots.Run, LigandPlots.info.
  follow_step ltac:(apply follows_log).
  follow_step ltac:(apply follows_generate_gromacs_data).
  follow_step ltac:(apply follows_log).
  apply follows_generate_ligand_plots.
Qed.

(** The whole run, from the command line. *)
Lemma cli_follows (path : Path) (protein : string) (run_gromacs : bool)
    (w : World) :
  ∃ new,
    trace (LigandPlots.cli path protein run_gromacs w).2 = trace w ++ new ∧
    Forall (standard_run (mount path)) (runs_of new) ∧
    (calls_of new) `prefix_of` (simulation_steps run_gromacs ++ chart_steps) ∧
    ((LigandPlots.cli path protein run_gromacs w).1 = Ok () →
     calls_of new = simulation_steps run_gromacs ++ chart_steps).
Proof.
  unfold LigandPlots.cli, run_obj. cbv zeta. unfold mbind, M_bind.
  destruct (follows_Run path run_gromacs
              {| self := LigandPlots.__init__ path protein run_gromacs;
                 world := w |})
    as (_ & new & Htrace & Hruns & Hres); [done|].
  destruct (LigandPlots.Run _) as [[[]|e] s]; simpl in *;
    exists new; split_and!; try done.
  - destruct Hres as [-> _]. done.
  - by destruct Hres.
Qed.

End Orchestrator.


Section RunClaims.
Context `{PF : PyFloat, EV : Env}.


(** C10: the object that [__init__] builds for a directory has this
    directory as its path and, as its volume table, the one entry that
    binds the directory to [/container/data] read-write. Every operation
    of [GromacsData] leaves such an object as it is, and every container
    run it makes uses the image [jpmontoya19/gromacs:latest], the working
    directory [/container/data] and this volume table; so does every
    container run of a whole program run. *)
Theorem container_invocations_fixed (path : Path) :
  (∀ w g, (GromacsData.__init__ path w).1 = Ok g →
          GromacsData.path g = path ∧
          GromacsData.volume g = mount path) ∧
  (let built := λ g : GromacsData.t, GromacsData.volume g = mount path in
   follows built (mount path) GromacsData.generate_minimization_data
     [generate_minimization_data_m] (λ _, True) ∧
   follows built (mount path) GromacsData.generate_nvt_data
     [generate_nvt_data_m] (λ _, True) ∧
   follows built (mount path) GromacsData.generate_npt_data
     [generate_npt_data_m] (λ _, True) ∧
   follows built (mount path) GromacsData.generate_final_xtc_file
     [generate_final_xtc_file_m] (λ _, True) ∧
   follows built (mount path) GromacsData.fix_periodicity
     [fix_periodicity_m] (λ _, True) ∧
   follows built (mount path) GromacsData.get_initial_configuration
     [get_initial_configuration_m] (λ _, True) ∧
   follows built (mount path) GromacsData.get_latest_configuration
     [get_latest_configuration_m] (λ _, True) ∧
   follows built (mount path) GromacsData._find_last_tpr_file
     [] (λ _, True)) ∧
  (∀ protein run_gromacs w,
     ∃ new,
       trace (LigandPlots.cli path protein run_gromacs w).2
         = trace w ++ new ∧
       Forall (standard_run (mount path)) (runs_of new)).
Proof.
  cbv zeta. split_and!.
  - intros w. apply GromacsData_init_spec.
  - apply (follows_generate_minimization_data (mount path)).
  - apply (follows_generate_nvt_data (mount path)).
  - apply (follows_generate_npt_data (mount path)).
  - apply (follows_generate_final_xtc_file (mount path)).
  - apply (follows_fix_periodicity (mount path)).
  - apply (follows_get_initial_configuration (mount path)).
  - apply (follows_get_latest_configuration (mount path)).
  - apply (follows_find_last_tpr_file (mount path)).
  - intros protein run_gromacs w.
    destruct (cli_follows path protein run_gromacs w)
      as (new & Htrace & Hruns & _).
    by exists new.
Qed.

End RunClaims.

(** ** The latest configuration *)

Section LatestConfiguration.
Context `{PF : PyFloat, EV : Env}.

Lemma find_last_frame_none (lines : list string) :
  GromacsData.find_last_frame lines = None ↔
  Forall (λ line, re.search_last_frame line = None) lines.
Proof.
  induction lines as [|line lines IH]; simpl.
  - split; [constructor|done].
  - destruct (re.search_last_frame line) eqn:E.
    + split; [done|]. intros [? _]%Forall_cons. congruence.
    + rewrite IH. split; [by constructor|by intros [_ ?]%Forall_cons].
Qed.

(** The value taken is the one of the first line that matches. *)
Lemma find_last_frame_first (before after : list string)
    (line frame : string) :
  Forall (λ line, re.search_last_frame line = None) before →
  re.search_last_frame line = Some frame →
  GromacsData.find_last_frame (before ++ line :: after) = Some frame.
Proof.
  intros Hbefore Hline.
  induction Hbefore as [|l before Hl _ IH]; simpl.
  - by rewrite Hline.
  - by rewrite Hl.
Qed.

(** When the check run, the reading of the report and the search of the
    topology file go through, the dump is submitted whether or not the
    marker was found: with the frame as found, or with the text [None]. *)
Lemma latest_configuration_dump (g : GromacsData.t) (w : World)
    (out content : string) (d : FS) (last_tpr : Path) :
  let check :=
    gromacs_run g
      ["sh"; "-c"; "gmx check -f fixed.xtc > trajectory_info.txt 2>&1"]
      false in
  let last_frame :=
    GromacsData.find_last_frame (PyStr.readlines content) in
  containers_run check (fs w) = (Ok out, d) →
  open_read d (path_str (GromacsData.path g) +:+ "/trajectory_info.txt")
    = Ok content →
  last (helpers.find_files_with_same_pattern d (GromacsData.path g)
          "md_0_*.tpr") = Some last_tpr →
  runs_of (trace (world
    (GromacsData.get_latest_configuration {| self := g; world := w |}).2))
  = runs_of (trace w) ++
    [check;
     gromacs_run g
       ["sh"; "-c";
        GromacsData.dump_command (path_name last_tpr)
          "last_configuration.pdb" (PyStr.format_optional last_frame)]
       false].
Proof.
  cbv zeta. intros Hcheck Hopen Hlast.
  unfold GromacsData.get_latest_configuration.
  unfold GromacsData._run_gromacs_container, gromacs_run in *. run_monad.
  unfold GromacsData.CONTAINER_WORK_DIR.
  simpl in Hcheck. rewrite Hcheck. simpl.
  rewrite Hopen. simpl.
  rewrite find_last_tpr_file_run. simpl. rewrite Hlast. simpl.
  run_gromacs_body.
  destruct (containers_run _ d) as [[out'|e] d']; simpl;
    rewrite !runs_of_app; simpl; by rewrite <- !app_assoc.
Qed.

End LatestConfiguration.

(** The pattern on the marker line of a report. *)
Lemma search_last_frame_examples :
  re.search_last_frame "Last frame 1500.0" = Some "1500.0" ∧
  re.search_last_frame "Last frame       1000 time 2000.000" = Some "1000" ∧
  re.search_last_frame "Last frame" = None ∧
  re.search_last_frame "Last frame x" = None ∧
  GromacsData.find_last_frame (PyStr.readlines Sample.report) = Some "1000".
Proof. split_and!; reflexivity. Qed.

(** C1 (the code against the claim): the report holds no marker line, so
    [last_frame] stays [None]; the operation does not fail, it submits the
    dump with [-dump None] and returns. *)
Theorem latest_configuration_without_marker :
  GromacsData.find_last_frame
    (PyStr.readlines Sample.report_without_marker) = None ∧
  (GromacsData.get_latest_configuration
     (Sample.gromacs_state Sample.disk_without_marker)).1 = Ok () ∧
  runs_of (trace (world
    (GromacsData.get_latest_configuration
       (Sample.gromacs_state Sample.disk_without_marker)).2))
  = [gromacs_run Sample.gromacs
       ["sh"; "-c"; "gmx check -f fixed.xtc > trajectory_info.txt 2>&1"]
       false;
     gromacs_run Sample.gromacs
       ["sh"; "-c";
        GromacsData.dump_command "md_0_2.tpr" "last_configuration.pdb"
          "None"]
       false].
Proof. split_and!; reflexivity. Qed.

(** ** The program on the sample directory *)

(** Discovery sorts by name, whatever the scan order, and finds nothing
    where nothing matches. *)
Lemma find_files_examples :
  helpers.find_files_with_same_pattern (EV := Sim.SimEnv)
    Sample.disk Sample.work "md_0_*.tpr"
  = [MkPath ["work"; "md_0_1.tpr"]; MkPath ["work"; "md_0_10.tpr"];
     MkPath ["work"; "md_0_2.tpr"]] ∧
  helpers.find_files_with_same_pattern (EV := Sim.SimEnv)
    Sample.disk Sample.work "*.edr" = [].
Proof. split; reflexivity. Qed.

(** The reader on a file with a token that is not a number. *)
Lemma read_xvg_files_bad_token :
  (helpers.read_xvg_files "work/bad.xvg" (Sample.world Sample.disk)).1
  = Raise ValueError.
Proof. reflexivity. Qed.

(** The topology reference is the last of the sorted matches; without a
    match the operation raises. *)
Lemma find_last_tpr_file_examples :
  (GromacsData._find_last_tpr_file (Sample.gromacs_state Sample.disk)).1
  = Ok ("md_0_2.tpr", MkPath ["work"; "md_0_2.tpr"]) ∧
  (GromacsData._find_last_tpr_file
     (Sample.gromacs_state Sample.disk_without_tpr)).1
  = Raise IndexError.
Proof. split; reflexivity. Qed.

(** With the marker in the report the dump is made at the frame found. *)
Lemma latest_configuration_with_marker :
  runs_of (trace (world
    (GromacsData.get_latest_configuration
       (Sample.gromacs_state Sample.disk)).2))
  = [gromacs_run Sample.gromacs
       ["sh"; "-c"; "gmx check -f fixed.xtc > trajectory_info.txt 2>&1"]
       false;
     gromacs_run Sample.gromacs
       ["sh"; "-c";
        GromacsData.dump_command "md_0_2.tpr" "last_configuration.pdb"
          "1000"]
       false].
Proof. reflexivity. Qed.

(** A whole run returns, with and without the flag, and enters the steps
    in the order of the claim. *)
Lemma run_completes :
  (LigandPlots.cli Sample.work "protein" true
     (Sample.world Sample.disk)).1 = Ok () ∧
  calls_of (trace (LigandPlots.cli Sample.work "protein" true
                     (Sample.world Sample.disk)).2)
  = simulation_steps true ++ chart_steps ∧
  (LigandPlots.cli Sample.work "protein" false
     (Sample.world Sample.disk)).1 = Ok () ∧
  calls_of (trace (LigandPlots.cli Sample.work "protein" false
                     (Sample.world Sample.disk)).2)
  = simulation_steps false ++ chart_steps.
Proof. split_and!; reflexivity. Qed.

(** The object that the constructor builds on the sample directory. *)
Lemma gromacs_init_example :
  (GromacsData.__init__ Sample.work (Sample.world Sample.disk)).1
  = Ok Sample.gromacs ∧
  GromacsData.volume Sample.gromacs = mount Sample.work.
Proof. split; reflexivity. Qed.

(** * Further properties *)

(** ** The tokens and the rows of the reader *)

Lemma all_chars_rev_app (p : ascii → bool) (a b : string) :
  all_chars p (String.rev_app a b) = all_chars p a && all_chars p b.
Proof.
  revert b. induction a as [|c a IH]; intros b; simpl; [done|].
  rewrite IH. simpl. by destruct (p c), (all_chars p a), (all_chars p b).
Qed.

Lemma rev_app_nonempty (a b : string) :
  b ≠ "" → String.rev_app a b ≠ "".
Proof.
  revert b. induction a as [|c a IH]; intros b Hb; simpl; [done|].
  by apply IH.
Qed.

Lemma rev_nonempty (cur : string) : cur ≠ "" → String.rev cur ≠ "".
Proof.
  destruct cur as [|c cur]; [done|]. intros _.
  unfold String.rev. simpl. by apply rev_app_nonempty.
Qed.

Lemma split_go_clean (cur s : string) :
  all_chars (λ c, negb (PyStr.isspace c)) cur = true →
  Forall clean_token (PyStr.split_go cur s).
Proof.
  revert cur. induction s as [|c s IH]; intros cur Hcur; simpl.
  - destruct (String.eqb_spec cur ""); [constructor|].
    repeat constructor; [by apply rev_nonempty|].
    unfold String.rev. by rewrite all_chars_rev_app, Hcur.
  - destruct (PyStr.isspace c) eqn:Hc.
    + apply Forall_app. split; [|by apply IH].
      destruct (String.eqb_spec cur ""); [constructor|].
      repeat constructor; [by apply rev_nonempty|].
      unfold String.rev. by rewrite all_chars_rev_app, Hcur.
    + apply IH. simpl. by rewrite Hc.
Qed.

(** Every token that the reader hands to [float()] is a non-empty run of
    characters without whitespace: no line, whatever it holds, gives an
    empty token. *)
Theorem reader_tokens_clean (line : string) :
  Forall clean_token (tokens_of line).
Proof. by apply split_go_clean. Qed.

Lemma drop_while_all (p : ascii → bool) (s : string) :
  all_chars p s = true → PyStr.drop_while p s = "".
Proof.
  induction s as [|c s IH]; simpl; [done|].
  destruct (p c); [auto|done].
Qed.

(** A line of whitespace only is a data line without tokens. *)
Lemma blank_line_no_token (line : string) :
  blank_line line →
  helpers.is_comment line = false ∧ tokens_of line = [].
Proof.
  intros Hblank. split.
  - destruct line as [|c line]; [done|].
    unfold blank_line in Hblank. simpl in Hblank.
    apply andb_true_iff in Hblank as [Hc _]. revert Hc.
    destruct c as [[] [] [] [] [] [] [] []];
      vm_compute; intros; congruence.
  - unfold tokens_of, PyStr.strip, PyStr.lstrip, PyStr.rstrip.
    by rewrite (drop_while_all _ _ Hblank).
Qed.

Section ReaderEdges.
Context `{PF : PyFloat, EV : Env}.

Lemma np_array_ok_uniform (data : list (list float)) (a : np.ndarray) :
  np.array data = Ok a → uniform data.
Proof.
  intros Ha r r' Hr Hr'.
  destruct (decide (length r = length r')) as [|Hne]; [done|].
  rewrite np_array_ragged in Ha; [done|].
  intros Hu. by apply Hne, Hu.
Qed.

(** What the returned array is made of. *)
Lemma read_xvg_shape (content : string) (a : np.ndarray) :
  helpers.read_xvg content = Ok a →
  match a with
  | np.Empty1D => data_lines (PyStr.readlines content) = []
  | np.Matrix ncols rows =>
      rows ≠ [] ∧ Forall (λ r, length r = ncols) rows ∧
      Forall2 (λ line row, length row = length (tokens_of line))
        (data_lines (PyStr.readlines content)) rows
  end.
Proof.
  unfold helpers.read_xvg, mbind, result_bind.
  destruct (helpers.xvg_rows _) as [data|] eqn:E; [|done].
  apply xvg_rows_lengths in E. unfold np.array.
  destruct data as [|r rs].
  - intros [= <-]. by apply Forall2_nil_inv_r in E.
  - destruct (forallb _ rs) eqn:Hall; [|done]. intros [= <-].
    split_and!; [done| |done].
    constructor; [done|]. apply Forall_forall. intros r' Hr'.
    rewrite forallb_forall in Hall.
    by apply Nat.eqb_eq, Hall, list_elem_of_In.
Qed.

(** An empty line (or any line of whitespace only) is not skipped: it is a
    row without entries. So a file that holds such a line and also a data
    line with a token cannot be read: the reader raises [ValueError],
    whether or not the tokens are numbers. *)
Theorem reader_blank_line (file_path : string) (w : World)
    (content blank line : string) :
  open_read (fs w) file_path = Ok content →
  blank ∈ PyStr.readlines content → blank_line blank →
  line ∈ data_lines (PyStr.readlines content) → tokens_of line ≠ [] →
  (helpers.read_xvg_files file_path w).1 = Raise ValueError.
Proof.
  intros Hopen Hblank Hb Hline Htok.
  rewrite read_xvg_files_run, Hopen. simpl.
  destruct (helpers.read_xvg content) as [a|e] eqn:E.
  2: { by rewrite (read_xvg_raises _ _ E). }
  exfalso.
  destruct (blank_line_no_token blank Hb) as [Hc Hno].
  assert (Hblank' : blank ∈ data_lines (PyStr.readlines content)).
  { by apply list_elem_of_filter. }
  unfold helpers.read_xvg, mbind, result_bind in E.
  destruct (helpers.xvg_rows _) as [data|] eqn:Hrows; [|done].
  pose proof (np_array_ok_uniform _ _ E) as Hu.
  apply xvg_rows_lengths in Hrows.
  destruct (Forall2_elem_l _ _ _ _ Hrows Hblank') as (r & Hr & Er).
  destruct (Forall2_elem_l _ _ _ _ Hrows Hline) as (r' & Hr' & Er').
  rewrite Hno in Er. rewrite (Hu r' r Hr' Hr), Er in Er'.
  by destruct (tokens_of line).
Qed.

(** The reader returns the empty one-dimensional array, and not a matrix,
    exactly for a file without data lines (an empty file, or comments
    only). *)
Theorem reader_no_data (file_path : string) (w : World) (content : string) :
  open_read (fs w) file_path = Ok content →
  (helpers.read_xvg_files file_path w).1 = Ok np.Empty1D ↔
  data_lines (PyStr.readlines content) = [].
Proof.
  intros Hopen. rewrite read_xvg_files_run, Hopen. simpl. split.
  - intros H. by apply read_xvg_shape in H.
  - intros Hnone.
    destruct (read_xvg_returns content) as [a Ha].
    + rewrite Hnone. constructor.
    + rewrite Hnone. intros r r' []%elem_of_nil.
    + rewrite Ha. f_equal.
      destruct (read_xvg_ok _ _ Ha) as [_ Hn]. rewrite Hnone in Hn.
      pose proof (read_xvg_shape _ _ Ha) as Hshape.
      destruct a as [|ncols rows]; [done|].
      destruct Hshape as (Hrows & _). simpl in Hn.
      by destruct rows.
Qed.

End ReaderEdges.

Lemma reader_blank_line_witness :
  (helpers.read_xvg_files "work/potential.xvg"
     (Sample.world (Cases.disk_with Cases.blank_xvg))).1
  = Raise ValueError.
Proof.
  apply (reader_blank_line _ _ Cases.blank_xvg PyStr.nl
           ("0 10" +:+ PyStr.nl)).
  - reflexivity.
  - right. left.
  - reflexivity.
  - apply list_elem_of_filter. split; [reflexivity|left].
  - discriminate.
Defined.

Lemma reader_no_data_witness :
  (helpers.read_xvg_files "work/potential.xvg"
     (Sample.world (Cases.disk_with Cases.comments_xvg))).1
  = Ok np.Empty1D.
Proof.
  apply (reader_no_data "work/potential.xvg"
           (Sample.world (Cases.disk_with Cases.comments_xvg))
           Cases.comments_xvg);
    reflexivity.
Defined.

(** ** When the wrappers plot, and what *)

Section Columns.
Context `{PF : PyFloat}.




End Columns.



Section WrapperRuns.
Context `{PF : PyFloat, EV : Env}.








End WrapperRuns.


(** A single column is not enough, and neither is a file of comments. *)
Lemma wrappers_need_two_columns_examples :
  (Plots.plot_energy_minimization
     (@Build_Obj Plots.t Sim.SimFloat Sim.SimEnv Sample.plots
        (Sample.world (Cases.disk_with Cases.one_column_xvg)))).1
  = Raise IndexError ∧
  (Plots.plot_energy_minimization
     (@Build_Obj Plots.t Sim.SimFloat Sim.SimEnv Sample.plots
        (Sample.world (Cases.disk_with Cases.comments_xvg)))).1
  = Raise IndexError.
Proof. split; reflexivity. Qed.

(** ** The trajectory steps *)

Section TrajectorySteps.
Context `{PF : PyFloat, EV : Env}.

(** [fix_periodicity] looks for the topology file first. Without one it
    raises [IndexError] and asks nothing of the container. With one it logs
    and submits a single [trjconv] command that names the file by its name
    alone (not its path), answers the two prompts with [1] and [0], reads
    [final.xtc] and writes [fixed.xtc]; what it returns is the decoded
    output of that run, and what the run raises it raises. *)
Theorem fix_periodicity_spec (g : GromacsData.t) (w : World) :
  let out := GromacsData.fix_periodicity {| self := g; world := w |} in
  match last (helpers.find_files_with_same_pattern (fs w)
                (GromacsData.path g) "md_0_*.tpr") with
  | None =>
      out = (Raise IndexError,
             state_of g (fs w) (trace w ++ [ECall fix_periodicity_m]))
  | Some last_tpr =>
      let text :=
        "echo 1 0 | gmx trjconv -s " +:+ path_name last_tpr +:+
        " -f final.xtc -o fixed.xtc -center -pbc mol -ur compact" in
      let run := gromacs_run g ["sh"; "-c"; text] false in
      trace (world out.2)
        = trace w ++ [ECall fix_periodicity_m; ELog text; ERun run] ∧
      self out.2 = g ∧
      fs (world out.2) = (containers_run run (fs w)).2 ∧
      out.1 = match (containers_run run (fs w)).1 with
              | Ok output => decode_utf8 output
              | Raise e => Raise e
              end
  end.
Proof.
  cbv zeta. unfold GromacsData.fix_periodicity. run_monad.
  rewrite find_last_tpr_file_run. simpl.
  destruct (last _) as [last_tpr|]; simpl; [|done].
  run_gromacs_body.
  destruct (containers_run _ (fs w)) as [[output|e] d]; simpl;
    [destruct (decode_utf8 output)|]; simpl;
    by rewrite <- ?app_assoc.
Qed.

(** [get_initial_configuration] likewise: no topology file, no container
    run, and [IndexError]; otherwise one [trjconv] command that answers
    the prompt with [22], reads [fixed.xtc] and [index.ndx], and dumps the
    frame at time 0 into [initial_configuration.pdb]. The output of the
    run is dropped. *)
Theorem get_initial_configuration_spec (g : GromacsData.t) (w : World) :
  let out :=
    GromacsData.get_initial_configuration {| self := g; world := w |} in
  match last (helpers.find_files_with_same_pattern (fs w)
                (GromacsData.path g) "md_0_*.tpr") with
  | None =>
      out = (Raise IndexError,
             state_of g (fs w)
               (trace w ++ [ECall get_initial_configuration_m]))
  | Some last_tpr =>
      let text :=
        GromacsData.dump_command (path_name last_tpr)
          "initial_configuration.pdb" "0" in
      let run := gromacs_run g ["sh"; "-c"; text] false in
      trace (world out.2)
        = trace w ++
          [ECall get_initial_configuration_m; ELog text; ERun run] ∧
      self out.2 = g ∧
      fs (world out.2) = (containers_run run (fs w)).2 ∧
      out.1 = match (containers_run run (fs w)).1 with
              | Ok _ => Ok ()
              | Raise e => Raise e
              end
  end.
Proof.
  cbv zeta. unfold GromacsData.get_initial_configuration. run_monad.
  rewrite find_last_tpr_file_run. simpl.
  destruct (last _) as [last_tpr|]; simpl; [|done].
  run_gromacs_body.
  destruct (containers_run _ (fs w)) as [[output|e] d]; simpl;
    by rewrite <- ?app_assoc.
Qed.

End TrajectorySteps.

(** The two steps on the sample directory and on one without topology. *)
Lemma trajectory_steps_examples :
  runs_of (trace (world
    (GromacsData.fix_periodicity (Sample.gromacs_state Sample.disk)).2))
  = [gromacs_run Sample.gromacs
       ["sh"; "-c";
        "echo 1 0 | gmx trjconv -s md_0_2.tpr -f final.xtc -o fixed.xtc -center -pbc mol -ur compact"]
       false] ∧
  (GromacsData.fix_periodicity
     (Sample.gromacs_state Sample.disk_without_tpr)).1 = Raise IndexError ∧
  (GromacsData.get_initial_configuration
     (Sample.gromacs_state Sample.disk_without_tpr)).1 = Raise IndexError.
Proof. split_and!; reflexivity. Qed.

(** ** The concatenation of the trajectory *)

Section Concatenation.
Context `{PF : PyFloat, EV : Env}.




(** [generate_final_xtc_file], step by step, on the world as the
    extraction leaves it. *)
Lemma generate_final_xtc_file_run (g : GromacsData.t) (w : World) :
  let entered :=
    {| fs := fs w;
       trace := trace w ++ [ECall generate_final_xtc_file_m] |} in
  let steps :=
    helpers.find_files_with_same_pattern (fs w) (GromacsData.path g)
      "my_job_*.output.tar.gz" in
  let extracted :=
    GromacsData.extract_xtc_steps steps (path_str (GromacsData.path g))
      [] entered in
  GromacsData.generate_final_xtc_file {| self := g; world := w |} =
    match extracted.1 with
    | Raise e => (Raise e, {| self := g; world := extracted.2 |})
    | Ok names =>
        let text :=
          "gmx trjcat -f " +:+ PyStr.join " " names +:+ " -o final.xtc" in
        let run := gromacs_run g ["sh"; "-c"; text] false in
        let logged := trace w ++ [ECall generate_final_xtc_file_m;
                                  ELog text; ERun run] in
        match containers_run run (fs extracted.2) with
        | (Ok _, d) =>
            let removed :=
              rmtree (path_str (GromacsData.path g) +:+ "/my_output") d in
            (removed.1, state_of g removed.2 logged)
        | (Raise e, d) => (Raise e, state_of g d logged)
        end
    end.
Proof.
  cbv zeta. unfold GromacsData.generate_final_xtc_file. run_monad.
  match goal with
  | |- context [GromacsData.extract_xtc_steps ?a ?b ?c ?d] =>
      pose proof (extract_xtc_steps_trace a b c d) as Htrace;
      destruct (GromacsData.extract_xtc_steps a b c d) as [[names|e] w']
  end; simpl in *; [|done].
  run_gromacs_body. rewrite Htrace. simpl.
  destruct (containers_run _ (fs w')) as [[output|e] d]; simpl.
  - destruct (rmtree _ d) as [r d']; simpl.
    unfold state_of. by rewrite <- ?app_assoc.
  - unfold state_of. by rewrite <- ?app_assoc.
Qed.





(** Without any archive the concatenation is still asked for, with an
    empty list of files. *)
Theorem trjcat_without_archives (g : GromacsData.t) (w : World) :
  glob (fs w) (GromacsData.path g) "my_job_*.output.tar.gz" = [] →
  let run :=
    gromacs_run g ["sh"; "-c"; "gmx trjcat -f  -o final.xtc"] false in
  trace (world
    (GromacsData.generate_final_xtc_file {| self := g; world := w |}).2)
  = trace w ++
    [ECall generate_final_xtc_file_m;
     ELog "gmx trjcat -f  -o final.xtc"; ERun run].
Proof.
  intros Hglob. cbv zeta. rewrite generate_final_xtc_file_run. cbv zeta.
  unfold helpers.find_files_with_same_pattern. cbv zeta.
  rewrite Hglob. simpl.
  destruct (containers_run _ _) as [[output|e] d]; [|done].
  by destruct (rmtree _ d).
Qed.

End Concatenation.


Lemma trjcat_without_archives_witness :
  trace (world
    (GromacsData.generate_final_xtc_file
       (Sample.gromacs_state Sample.disk_without_tpr)).2)
  = [ECall generate_final_xtc_file_m;
     ELog "gmx trjcat -f  -o final.xtc";
     ERun (gromacs_run Sample.gromacs
             ["sh"; "-c"; "gmx trjcat -f  -o final.xtc"] false)].
Proof.
  apply (trjcat_without_archives Sample.gromacs
           (Sample.world Sample.disk_without_tpr)).
  reflexivity.
Defined.

(** ** The frame of the latest configuration *)






(** The search stops at the first line that holds the marker: a later
    marker line does not change the frame. *)
Lemma find_last_frame_first_witness :
  GromacsData.find_last_frame (PyStr.readlines Cases.report_twice)
  = Some "250".
Proof.
  apply (find_last_frame_first
           ["Reading frame 0" +:+ PyStr.nl]
           ["Last frame 999 time 0.000" +:+ PyStr.nl]
           ("Last frame 250 time 500.000" +:+ PyStr.nl)).
  - repeat constructor.
  - reflexivity.
Defined.

Section LatestFailures.
Context `{PF : PyFloat, EV : Env}.

(** Where [get_latest_configuration] can stop. The check run comes first
    and the topology file is looked for last: a check run that raises, or a
    report that cannot be opened afterwards, ends the operation with that
    exception after the one container run; and a directory without a
    topology file is noticed only after the check has run and the report
    has been read and logged, with [IndexError]. In none of these cases is
    a dump submitted. *)
Theorem latest_configuration_failures (g : GromacsData.t) (w : World) :
  let check :=
    gromacs_run g
      ["sh"; "-c"; "gmx check -f fixed.xtc > trajectory_info.txt 2>&1"]
      false in
  let report := path_str (GromacsData.path g) +:+ "/trajectory_info.txt" in
  let out :=
    GromacsData.get_latest_configuration {| self := g; world := w |} in
  let entered := trace w ++ [ECall get_latest_configuration_m; ERun check] in
  (∀ e d, containers_run check (fs w) = (Raise e, d) →
          out = (Raise e, state_of g d entered)) ∧
  (∀ output d e,
     containers_run check (fs w) = (Ok output, d) →
     open_read d report = Raise e →
     out = (Raise e, state_of g d entered)) ∧
  (∀ output d content,
     containers_run check (fs w) = (Ok output, d) →
     open_read d report = Ok content →
     last (helpers.find_files_with_same_pattern d (GromacsData.path g)
             "md_0_*.tpr") = None →
     out = (Raise IndexError,
            state_of g d
              (entered ++
               [ELog ("Last frame: " +:+
                      PyStr.format_optional
                        (GromacsData.find_last_frame
                           (PyStr.readlines content)))]))).
Proof.
  cbv zeta.
  unfold GromacsData.get_latest_configuration.
  unfold GromacsData._run_gromacs_container, gromacs_run in *. run_monad.
  unfold GromacsData.CONTAINER_WORK_DIR.
  split_and!.
  - intros e d Hcheck. rewrite Hcheck. simpl.
    unfold state_of. by rewrite <- ?app_assoc.
  - intros output d e Hcheck Hopen. rewrite Hcheck. simpl.
    rewrite Hopen. simpl. unfold state_of. by rewrite <- ?app_assoc.
  - intros output d content Hcheck Hopen Hlast. rewrite Hcheck. simpl.
    rewrite Hopen. simpl. rewrite find_last_tpr_file_run. simpl.
    rewrite Hlast. simpl. unfold state_of. by rewrite <- ?app_assoc.
Qed.

End LatestFailures.

(** The dump of the sample directory, at the frame of the report. *)
Lemma latest_configuration_dump_witness :
  runs_of (trace (world
    (GromacsData.get_latest_configuration
       (Sample.gromacs_state Sample.disk)).2))
  = [gromacs_run Sample.gromacs
       ["sh"; "-c"; "gmx check -f fixed.xtc > trajectory_info.txt 2>&1"]
       false;
     gromacs_run Sample.gromacs
       ["sh"; "-c";
        GromacsData.dump_command "md_0_2.tpr" "last_configuration.pdb"
          "1000"]
       false].
Proof.
  apply (latest_configuration_dump Sample.gromacs
           (Sample.world Sample.disk) ""
           Sample.report
           (Sim.write_file Sample.disk "work/trajectory_info.txt"
              Sample.report)
           (MkPath ["work"; "md_0_2.tpr"]));
    reflexivity.
Defined.

(** Without topology file the check still runs and its report is read. *)
Lemma latest_configuration_failures_witness :
  (GromacsData.get_latest_configuration
     (Sample.gromacs_state Sample.disk_without_tpr)).1 = Raise IndexError ∧
  calls_of (trace (world
    (GromacsData.get_latest_configuration
       (Sample.gromacs_state Sample.disk_without_tpr)).2))
  = [get_latest_configuration_m] ∧
  length (runs_of (trace (world
    (GromacsData.get_latest_configuration
       (Sample.gromacs_state Sample.disk_without_tpr)).2))) = 1%nat.
Proof.
  pose proof
    (proj2 (proj2 (latest_configuration_failures Sample.gromacs
                     (Sample.world Sample.disk_without_tpr)))
       "" (Sim.write_file Sample.disk_without_tpr
             "work/trajectory_info.txt" Sample.report)
       Sample.report) as H.
  unfold Sample.gromacs_state.
  rewrite H; [split_and!; reflexivity | reflexivity ..].
Defined.

(** ** How a run fails *)

Ltac run_cli :=
  unfold LigandPlots.cli, run_obj, LigandPlots.Run,
    LigandPlots.generate_gromacs_data, LigandPlots.info, call, run_obj,
    GromacsData.__init__, helpers.create_folder, LigandPlots.__init__;
  run_monad.

Section RunFailures.
Context `{PF : PyFloat, EV : Env}.

(** When the folder [results] cannot be made, the run ends at once with
    the exception of [mkdir]: nothing but the first log line is left, no
    step is entered and no container is asked for. *)
Theorem run_without_results_folder (path : Path) (protein : string)
    (run_gromacs : bool) (w : World) (e : exn) (d : FS) :
  mkdir (path_str path +:+ "/results") (fs w) = (Raise e, d) →
  LigandPlots.cli path protein run_gromacs w
  = (Raise e,
     {| fs := d; trace := trace w ++ [ELog "Running LigandPlots"] |}).
Proof.
  intros Hmkdir.
  change (path_str path +:+ "/results")
    with (path_str path +:+ "/" +:+ "results") in Hmkdir.
  run_cli. by rewrite Hmkdir.
Qed.

(** When the first container run raises (the backend cannot be reached, or
    the tool fails), the run raises the same exception: the minimization
    step is the only one entered, its command the only one submitted, and
    no chart is drawn. *)
Theorem run_with_backend_down (path : Path) (protein : string)
    (run_gromacs : bool) (w : World) (e : exn) (d d' : FS) :
  let g := {| GromacsData.path := path;
              GromacsData.volume := mount path;
              GromacsData.results_folder := path_child path "results" |} in
  let run :=
    gromacs_run g (energy_command "10 0" "em.edr" "potential.xvg") true in
  mkdir (path_str path +:+ "/results") (fs w) = (Ok (), d) →
  containers_run run d = (Raise e, d') →
  LigandPlots.cli path protein run_gromacs w
  = (Raise e,
     {| fs := d';
        trace := trace w ++
          [ELog "Running LigandPlots";
           ELog "Generating minimization data";
           ECall generate_minimization_data_m;
           ELog "echo 10 0 | gmx energy -f em.edr -o potential.xvg";
           ERun run] |}).
Proof.
  cbv zeta. intros Hmkdir Hrun.
  change (path_str path +:+ "/results")
    with (path_str path +:+ "/" +:+ "results") in Hmkdir.
  run_cli. rewrite Hmkdir. simpl.
  unfold GromacsData.generate_minimization_data. run_gromacs_body.
  match goal with
  | |- context [containers_run ?inv d] =>
      change (containers_run inv d = (Raise e, d')) in Hrun
  end.
  rewrite Hrun. simpl. by rewrite <- ?app_assoc.
Qed.

(** The plotting phase asks nothing of the container: whatever the disk
    holds, [generate_ligand_plots] adds no container run to the trace; it
    enters the four wrappers in the order minimization, temperature,
    pressure, density, all of them when it returns and the first ones when
    a wrapper raises. *)
Theorem plots_run_no_container (s : Obj LigandPlots.t) :
  let out := LigandPlots.generate_ligand_plots s in
  self out.2 = self s ∧
  ∃ new,
    trace (world out.2) = trace (world s) ++ new ∧
    runs_of new = [] ∧
    (calls_of new) `prefix_of` chart_steps ∧
    (out.1 = Ok () → calls_of new = chart_steps).
Proof.
  cbv zeta.
  destruct (follows_generate_ligand_plots (LigandPlots.path (self s))
              (LigandPlots.run_gromacs (self s)) ∅ s)
    as (Hself & new & Htrace & Hruns & Hres); [done|].
  destruct (follows_generate_ligand_plots (LigandPlots.path (self s))
              (LigandPlots.run_gromacs (self s))
              (mount (LigandPlots.path (self s))) s)
    as (_ & new' & Htrace' & Hruns' & _); [done|].
  rewrite Htrace in Htrace'. apply app_inv_head in Htrace' as <-.
  split; [done|]. exists new. split_and!; [done| | |].
  - destruct (runs_of new) as [|inv runs]; [done|].
    apply Forall_cons in Hruns as [(_ & _ & Hempty) _].
    apply Forall_cons in Hruns' as [(_ & _ & Hmount) _].
    rewrite Hempty in Hmount. unfold mount in Hmount.
    symmetry in Hmount. by apply map_non_empty_singleton in Hmount.
  - destruct ((LigandPlots.generate_ligand_plots s).1); [|done].
    by destruct Hres as [-> _].
  - intros Hok. rewrite Hok in Hres. by destruct Hres.
Qed.

End RunFailures.

Lemma run_without_results_folder_witness :
  (LigandPlots.cli Sample.work "protein" true
     (Cases.read_only_world Sample.disk)).1 = Raise OSError.
Proof.
  rewrite (run_without_results_folder Sample.work "protein" true
             (Cases.read_only_world Sample.disk) OSError Sample.disk);
    reflexivity.
Defined.

Lemma run_with_backend_down_witness :
  (LigandPlots.cli Sample.work "protein" false
     (Sample.world Cases.disk_offline)).1 = Raise DockerException ∧
  calls_of (trace
    (LigandPlots.cli Sample.work "protein" false
       (Sample.world Cases.disk_offline)).2)
  = [generate_minimization_data_m].
Proof.
  rewrite (run_with_backend_down Sample.work "protein" false
             (Sample.world Cases.disk_offline) DockerException
             Cases.disk_offline Cases.disk_offline);
    [split| |]; reflexivity.
Defined.
